(** * Hydrogen gas cooler design tool: the sizing handler of [app.py]

    A shallow embedding of the Streamlit script [src/app.py]: the
    "Run Hydrogen Cooler Design" handler (unit conversion, property lookup,
    duty, tube design, heat-transfer coefficients, LMTD, required area, shell
    diameter), the on-screen results, the rows handed to the PDF table, and
    the feedback log.

    Numbers are what the script computes with: Python [float] is IEEE 754
    binary64, modelled by Rocq's primitive floats; Python [int] is [Z].
    Exceptions are explicit: every operation that can raise returns a
    [result]. *)

From Stdlib Require Import ZArith QArith Qround Floats String List Bool Lia Lqa.
From Stdlib Require Import Ascii DecimalString.
Import ListNotations.

Set Warnings "-inexact-float".

(** ** Exceptions and the error monad *)

(** The exceptions the script can meet.  [TypeError] only labels a branch
    that is never taken (see [float_pow_int]); [EmptyDataError] is
    pandas'. *)
Inductive exn : Type :=
| ZeroDivisionError
| ValueError
| OverflowError
| TypeError
| EmptyDataError.

Inductive result (A : Type) : Type :=
| Ok (a : A)
| Raise (e : exn).
Arguments Ok {A} a.
Arguments Raise {A} e.

Definition bind {A B : Type} (c : result A) (k : A -> result B) : result B :=
  match c with
  | Ok a => k a
  | Raise e => Raise e
  end.

Definition fmap {A B : Type} (f : A -> B) (c : result A) : result B :=
  bind c (fun a => Ok (f a)).

Declare Scope py_scope.
Delimit Scope py_scope with py.
Notation "x <- c ;; k" := (bind c (fun x => k))
  (at level 61, c at next level, right associativity) : py_scope.

Definition raises {A : Type} (c : result A) : Prop := exists e, c = Raise e.

(** ** Python floats *)

Open Scope string_scope.
Open Scope float_scope.

(** The sign-carrying integer mantissa of a finite binary64 value. *)
Definition signed (s : bool) (m : positive) : Z :=
  if s then Z.neg m else Z.pos m.

(** The exact rational value of a finite float ([0] for NaN and the
    infinities, which have none). *)
Definition SF2Q (x : spec_float) : QArith_base.Q :=
  match x with
  | S754_finite s m e =>
      if (0 <=? e)%Z then inject_Z (signed s m * 2 ^ e)
      else Qmake (signed s m) (2 ^ Z.to_pos (- e))
  | _ => 0%Q
  end.

Definition F2Q (x : float) : QArith_base.Q := SF2Q (Prim2SF x).

(** Neither NaN nor an infinity. *)
Definition finite_float (x : float) : bool :=
  match Prim2SF x with
  | S754_zero _ | S754_finite _ _ _ => true
  | _ => false
  end.

(** [x / y] on two Python floats: [float.__truediv__] raises on a zero
    divisor (of either sign) and otherwise is the IEEE quotient. *)
Definition truediv (x y : float) : result float :=
  if y =? 0 then Raise ZeroDivisionError else Ok (x / y).

(** [int(np.ceil(x))]: [np.ceil] returns the integral binary64 value of the
    ceiling (NaN and the infinities unchanged) and [int] converts it
    exactly; [int] raises [ValueError] on NaN and [OverflowError] on an
    infinity. *)
Definition SFint_ceil (x : spec_float) : result Z :=
  match x with
  | S754_zero _ => Ok 0%Z
  | S754_infinity _ => Raise OverflowError
  | S754_nan => Raise ValueError
  | S754_finite s m e =>
      Ok (if (0 <=? e)%Z then signed s m * 2 ^ e
          else - ((- signed s m) / 2 ^ (- e)))%Z
  end.

Definition int_ceil (x : float) : result Z := SFint_ceil (Prim2SF x).

(** An [int] operand of a float operation is converted by
    [PyLong_AsDouble]: rounded to nearest-even, [OverflowError] when the
    integer is beyond the binary64 range. *)
Definition float_of_int (n : Z) : result float :=
  let f := SF2Prim (binary_normalize prec emax n 0 false) in
  if is_infinity f then Raise OverflowError else Ok f.

(** The integer a float is equal to, when it is one. *)
Definition SFinteger (x : spec_float) : option Z :=
  match x with
  | S754_zero _ => Some 0%Z
  | S754_finite s m e =>
      if (0 <=? e)%Z then Some (signed s m * 2 ^ e)%Z
      else if (Z.pos m mod 2 ^ (- e) =? 0)%Z
           then Some (signed s m / 2 ^ (- e))%Z
           else None
  | _ => None
  end.

(** [iw == floor(iw)] for a finite [iw]. *)
Definition is_integer (x : float) : bool :=
  match SFinteger (Prim2SF x) with Some _ => true | None => false end.

(** CPython's [DOUBLE_IS_ODD_INTEGER]. *)
Definition is_odd_integer (x : float) : bool :=
  match SFinteger (Prim2SF x) with Some n => Z.odd n | None => false end.

(** ** Formatting *)

(** [str(n)] for an [int]. *)
Definition str_int (n : Z) : string := NilZero.string_of_int (Z.to_int n).

Fixpoint zeros (k : nat) : string :=
  match k with
  | O => EmptyString
  | S k' => String "0"%char (zeros k')
  end.

(** The digits of the natural number [n] with a decimal point before the
    last [p] of them. *)
Definition fixed_point (p : nat) (n : Z) : string :=
  let d := NilZero.string_of_uint (N.to_uint (Z.to_N n)) in
  let d := (zeros (S p - String.length d) ++ d)%string in
  let k := (String.length d - p)%nat in
  (substring 0 k d ++ "." ++ substring k p d)%string.

(** [m * 2^e] rounded to an integer, ties to even. *)
Definition round_half_even (m e : Z) : Z :=
  if (0 <=? e)%Z then (m * 2 ^ e)%Z
  else
    let den := (2 ^ (- e))%Z in
    let q := (m / den)%Z in
    let r := (m mod den)%Z in
    if (2 * r <? den)%Z then q
    else if (den <? 2 * r)%Z then (q + 1)%Z
    else if Z.even q then q else (q + 1)%Z.

(** [format(x, '.pf')] for [p >= 1]: the exact value of [x] rounded
    half-even to [p] decimals, as [float.__format__] does. *)
Definition format_f (p : nat) (x : float) : string :=
  match Prim2SF x with
  | S754_nan => "nan"
  | S754_infinity s => if s then "-inf" else "inf"
  | S754_zero s => ((if s then "-" else "") ++ fixed_point p 0)%string
  | S754_finite s m e =>
      ((if s then "-" else "")
       ++ fixed_point p (round_half_even (Z.pos m * 10 ^ Z.of_nat p) e))%string
  end.

(** ** Python's numeric protocol, as far as the tube design uses it

    The auto-water and tube-design lines use only [*], [-], [/],
    [int(np.ceil(.))] and the conversion of an [int] operand.  They are
    written once over these operations; the handler runs them on binary64
    ([py_float]).  The instance on exact rationals ([py_exact]) reads the
    same lines without rounding. *)

Class PyArith (num : Type) : Type := {
  num_mul : num -> num -> num;
  num_sub : num -> num -> num;
  num_div : num -> num -> result num;
  num_of_int : Z -> result num;
  num_ceil : num -> result Z
}.

#[export] Instance py_float : PyArith float := {
  num_mul := PrimFloat.mul;
  num_sub := PrimFloat.sub;
  num_div := truediv;
  num_of_int := float_of_int;
  num_ceil := int_ceil
}.

#[export] Instance py_exact : PyArith QArith_base.Q := {
  num_mul := Qmult;
  num_sub := Qminus;
  num_div := fun x y => if Qeq_bool y 0 then Raise ZeroDivisionError else Ok (x / y)%Q;
  num_of_int := fun n => Ok (inject_Z n);
  num_ceil := fun x => Ok (Qceiling x)
}.

Section TubeDesign.
Context {num : Type} `{PyArith num}.
Local Open Scope py_scope.

(** [m_dot_cold = Q / (Cp_water * (T_cold_out - T_cold_in))] *)
Definition cooling_water_flow (Q_duty Cp_water T_cold_out T_cold_in : num)
  : result num :=
  num_div Q_duty (num_mul Cp_water (num_sub T_cold_out T_cold_in)).

(** [N_per_pass = int(np.ceil(m_dot_h / (rho_h * velocity_target * A_single)))] *)
Definition tubes_per_pass (m_dot_h rho_h velocity_target A_single : num)
  : result Z :=
  raw <- num_div m_dot_h (num_mul (num_mul rho_h velocity_target) A_single) ;;
  num_ceil raw.

(** [velocity = m_dot_h / (rho_h * N_per_pass * A_single)] *)
Definition tube_velocity (m_dot_h rho_h : num) (N_per_pass : Z) (A_single : num)
  : result num :=
  n <- num_of_int N_per_pass ;;
  num_div m_dot_h (num_mul (num_mul rho_h n) A_single).
End TubeDesign.

(** ** Floats and complex numbers

    [Re_h**0.8] and [Pr_h**0.4] are complex when the base is negative, and
    everything computed from them then is.  The parts of a complex value are
    not tracked: CPython's complex arithmetic is an interface the handler is
    run against. *)

Class ComplexOps (C : Type) : Type := {
  c_of_float : float -> C;
  c_add : C -> C -> C;
  c_mul : C -> C -> C;
  c_div : C -> C -> result C;       (* ZeroDivisionError on a zero divisor *)
  c_pow : float -> float -> result C; (* negative base, fractional exponent *)
  c_format : nat -> C -> string
}.

Inductive pynum (C : Type) : Type :=
| PyFloat (x : float)
| PyComplex (c : C).
Arguments PyFloat {C} x.
Arguments PyComplex {C} c.

Section Numbers.
Context {C : Type} `{ComplexOps C}.
Local Open Scope py_scope.

Definition to_complex (a : pynum C) : C :=
  match a with
  | PyFloat x => c_of_float x
  | PyComplex c => c
  end.

Definition py_add (a b : pynum C) : pynum C :=
  match a, b with
  | PyFloat x, PyFloat y => PyFloat (x + y)
  | _, _ => PyComplex (c_add (to_complex a) (to_complex b))
  end.

Definition py_mul (a b : pynum C) : pynum C :=
  match a, b with
  | PyFloat x, PyFloat y => PyFloat (x * y)
  | _, _ => PyComplex (c_mul (to_complex a) (to_complex b))
  end.

Definition py_div (a b : pynum C) : result (pynum C) :=
  match a, b with
  | PyFloat x, PyFloat y => fmap PyFloat (truediv x y)
  | _, _ => fmap PyComplex (c_div (to_complex a) (to_complex b))
  end.

(** [x / d] where [x] is a Python float and [d] is an [np.float64] or a
    Python complex: NumPy's reflected division never raises (a zero
    divisor gives an infinity or NaN), complex division does. *)
Definition np_rdiv (x : float) (d : pynum C) : result (pynum C) :=
  match d with
  | PyFloat y => Ok (PyFloat (x / y))
  | PyComplex c => fmap PyComplex (c_div (c_of_float x) c)
  end.

Definition format_num (p : nat) (a : pynum C) : string :=
  match a with
  | PyFloat x => format_f p x
  | PyComplex c => c_format p c
  end.

(** *** [float ** float]

    CPython's [float_pow], with the C library's [pow] as a parameter.
    [float_pow_real] is [None] where CPython hands over to the complex
    power. *)
Variable libm_pow : float -> float -> float.

Definition float_pow_real (iv iw : float) : option (result float) :=
  if iw =? 0 then Some (Ok 1)
  else if is_nan iv then Some (Ok iv)
  else if is_nan iw then Some (Ok (if iv =? 1 then 1 else iw))
  else if is_infinity iw then
    if abs iv =? 1 then Some (Ok 1)
    else if Bool.eqb (0 <? iw) (1 <? abs iv) then Some (Ok (abs iw))
    else Some (Ok 0)
  else if is_infinity iv then
    if 0 <? iw then Some (Ok (if is_odd_integer iw then iv else abs iv))
    else Some (Ok (if is_odd_integer iw
                   then (if iv <? 0 then -0 else 0) else 0))
  else if iv =? 0 then
    if iw <? 0 then Some (Raise ZeroDivisionError)
    else Some (Ok (if is_odd_integer iw then iv else 0))
  else if (iv <? 0) && negb (is_integer iw) then None
  else
    let negate_result := (iv <? 0) && is_odd_integer iw in
    if abs iv =? 1 then Some (Ok (if negate_result then -1 else 1))
    else
      let ix := libm_pow (abs iv) iw in
      if is_infinity ix then Some (Raise OverflowError)
      else Some (Ok (if negate_result then - ix else ix)).

Definition float_pow (iv iw : float) : result (pynum C) :=
  match float_pow_real iv iw with
  | Some r => fmap PyFloat r
  | None => fmap PyComplex (c_pow iv iw)
  end.

(** [iv ** n] for an [int] exponent: always a float, because the complex
    branch is taken for a fractional exponent only
    ([float_pow_real_integer]). *)
Definition float_pow_int (iv : float) (n : float) : result float :=
  match float_pow_real iv n with
  | Some r => r
  | None => Raise TypeError
  end.
End Numbers.

(** ** The sizing handler *)

(** The value of the [passes] selectbox, whose options are [1, 2, 4]. *)
Inductive tube_passes : Type := One | Two | Four.

Definition passes_int (p : tube_passes) : Z :=
  match p with
  | One => 1
  | Two => 2
  | Four => 4
  end.

(** The widget values the handler reads.  [m_dot_cold_input] is [None] when
    "Auto Calculate Cooling Water Flow" is ticked: the cooling-water widget
    then does not exist. *)
Record ProcessInputs : Type := {
  flow_hot_nm3_hr : float;
  T_hot_in_C : float;
  T_hot_out_C : float;
  P_hot_bar : float;
  T_cold_in_C : float;
  T_cold_out_C : float;
  P_cold_bar : float;
  m_dot_cold_input : option float;
  D_i : float;
  t_wall : float;
  velocity_target : float;
  passes : tube_passes
}.

Definition auto_water (i : ProcessInputs) : bool :=
  match m_dot_cold_input i with
  | None => true
  | Some _ => false
  end.

(** A [DataFrame] as [st.dataframe] shows it: the column names and the
    rows of cells, as text. *)
Record frame : Type := {
  columns : list string;
  rows : list (list string)
}.

(** What the script calls and does not define.  For the handler:
    CoolProp's [PropsSI] (which raises on a state point it cannot
    evaluate), [np.log] and the C library's [pow].  For the feedback log,
    the two halves of pandas' CSV support: [csv_row] is the text
    [DataFrame.to_csv] writes for one record (the fields quoted as the
    [csv] writer decides, then the line terminator of the platform), the
    header record included; [read_csv] is [pd.read_csv] on a file with the
    given text, with whatever it infers, renames or rejects. *)
Record Env : Type := {
  PropsSI : string -> string -> float -> string -> float -> string -> result float;
  np_log : float -> float;
  libm_pow : float -> float -> float;
  csv_row : list string -> string;
  read_csv : string -> result frame
}.

Definition np_pi : float := 3.141592653589793.

(** [F = 1 if passes == 1 else 0.85] *)
Definition correction_factor (p : tube_passes) : float :=
  if (passes_int p =? 1)%Z then 1 else 0.85.

(** [LMTD = (deltaT1 - deltaT2) / np.log(deltaT1/deltaT2)]: the inner
    quotient is Python's, the outer one NumPy's. *)
Definition lmtd (env : Env) (deltaT1 deltaT2 : float) : result float :=
  bind (truediv deltaT1 deltaT2)
       (fun ratio => Ok ((deltaT1 - deltaT2) / np_log env ratio)).

Section Handler.
Context {C : Type} `{ComplexOps C}.
Local Open Scope py_scope.

(** The local variables of the handler when line 169 is reached. *)
Record Locals : Type := {
  T_hot_in : float;
  T_hot_out : float;
  T_cold_in : float;
  T_cold_out : float;
  P_hot : float;
  P_cold : float;
  flow_hot_m3_s : float;
  rho_h : float;
  Cp_h : float;
  mu_h : float;
  k_h : float;
  Pr_h : float;
  m_dot_h : float;
  Q_duty : float;              (* the script's [Q] *)
  Cp_water : option float;     (* bound in the auto-water branch only *)
  m_dot_cold : float;
  A_single : float;
  N_per_pass : Z;
  N_total : Z;
  velocity : float;
  Re_h : float;
  Nu_h : pynum C;
  h_hot : pynum C;
  U : pynum C;
  deltaT1 : float;
  deltaT2 : float;
  LMTD : float;
  F : float;
  A_required : pynum C;
  D_o : float;
  D_shell : float
}.

Definition h_shell : float := 3000.
Definition Rf_i : float := 0.0001.
Definition Rf_o : float := 0.0002.
Definition k_tube : float := 16.
Definition K : float := 0.9.

(** Lines 147-157: [Re_h], [Nu_h], [h_hot] and [U]. *)
Definition reynolds (rho velocity D_i mu : float) : result float :=
  truediv (rho * velocity * D_i) mu.

Definition nusselt (env : Env) (Re Pr : float) : result (pynum C) :=
  p1 <- float_pow (libm_pow env) Re 0.8 ;;
  p2 <- float_pow (libm_pow env) Pr 0.4 ;;
  Ok (py_mul (py_mul (PyFloat 0.023) p1) p2).

Definition film_coefficient (Nu : pynum C) (k D_i : float) : result (pynum C) :=
  py_div (py_mul Nu (PyFloat k)) (PyFloat D_i).

Definition overall_U (h_hot : pynum C) (t_wall : float) : result (pynum C) :=
  r_hot <- py_div (PyFloat 1) h_hot ;;
  py_div (PyFloat 1)
    (py_add (py_add (py_add (py_add r_hot (PyFloat Rf_i))
                            (PyFloat (t_wall / k_tube)))
                    (PyFloat (1 / h_shell)))
            (PyFloat Rf_o)).

(** [A_single = np.pi * D_i**2 / 4] *)
Definition single_tube_area (env : Env) (D_i : float) : result float :=
  D_i_sq <- float_pow_int (libm_pow env) D_i 2 ;;
  Ok (np_pi * D_i_sq / 4).

(** Lines 116-169, in the order the script evaluates them. *)
Definition run (env : Env) (i : ProcessInputs) : result Locals :=
  (* Unit conversion *)
  let T_hot_in := T_hot_in_C i + 273.15 in
  let T_hot_out := T_hot_out_C i + 273.15 in
  let T_cold_in := T_cold_in_C i + 273.15 in
  let T_cold_out := T_cold_out_C i + 273.15 in
  let P_hot := P_hot_bar i * 1e5 in
  let P_cold := P_cold_bar i * 1e5 in
  let flow_hot_m3_s := flow_hot_nm3_hr i / 3600 in
  (* Hydrogen properties *)
  rho_h <- PropsSI env "D" "T" T_hot_in "P" P_hot "Hydrogen" ;;
  Cp_h <- PropsSI env "C" "T" T_hot_in "P" P_hot "Hydrogen" ;;
  mu_h <- PropsSI env "V" "T" T_hot_in "P" P_hot "Hydrogen" ;;
  k_h <- PropsSI env "L" "T" T_hot_in "P" P_hot "Hydrogen" ;;
  Pr_h <- PropsSI env "PRANDTL" "T" T_hot_in "P" P_hot "Hydrogen" ;;
  let m_dot_h := rho_h * flow_hot_m3_s in
  let Q := m_dot_h * Cp_h * (T_hot_in - T_hot_out) in
  (* Auto water calculation *)
  water <- match m_dot_cold_input i with
           | None =>
               Cp_water <- PropsSI env "C" "T" T_cold_in "P" P_cold "Water" ;;
               m_dot_cold <- cooling_water_flow Q Cp_water T_cold_out T_cold_in ;;
               Ok (Some Cp_water, m_dot_cold)
           | Some m_dot_cold => Ok (None, m_dot_cold)
           end ;;
  (* Tube design *)
  A_single <- single_tube_area env (D_i i) ;;
  N_per_pass <- tubes_per_pass m_dot_h rho_h (velocity_target i) A_single ;;
  let N_total := (N_per_pass * passes_int (passes i))%Z in
  velocity <- tube_velocity m_dot_h rho_h N_per_pass A_single ;;
  (* Heat transfer coefficients *)
  Re_h <- reynolds rho_h velocity (D_i i) mu_h ;;
  Nu_h <- nusselt env Re_h Pr_h ;;
  h_hot <- film_coefficient Nu_h k_h (D_i i) ;;
  U <- overall_U h_hot (t_wall i) ;;
  (* LMTD *)
  let deltaT1 := T_hot_in - T_cold_out in
  let deltaT2 := T_hot_out - T_cold_in in
  LMTD <- lmtd env deltaT1 deltaT2 ;;
  let F := correction_factor (passes i) in
  A_required <- np_rdiv Q (py_mul (py_mul U (PyFloat F)) (PyFloat LMTD)) ;;
  let D_o := D_i i + 2 * t_wall i in
  n_total <- float_of_int N_total ;;
  let D_shell := D_o * sqrt (n_total / (0.785 * K)) in
  Ok {| T_hot_in := T_hot_in; T_hot_out := T_hot_out;
        T_cold_in := T_cold_in; T_cold_out := T_cold_out;
        P_hot := P_hot; P_cold := P_cold; flow_hot_m3_s := flow_hot_m3_s;
        rho_h := rho_h; Cp_h := Cp_h; mu_h := mu_h; k_h := k_h; Pr_h := Pr_h;
        m_dot_h := m_dot_h; Q_duty := Q;
        Cp_water := fst water; m_dot_cold := snd water;
        A_single := A_single; N_per_pass := N_per_pass; N_total := N_total;
        velocity := velocity; Re_h := Re_h; Nu_h := Nu_h; h_hot := h_hot;
        U := U; deltaT1 := deltaT1; deltaT2 := deltaT2; LMTD := LMTD;
        F := F; A_required := A_required; D_o := D_o; D_shell := D_shell |}.

(** The seven quantities the tool reports. *)
Record SizingResult : Type := {
  heat_duty : float;
  cooling_water : float;
  overall_coefficient : pynum C;
  required_area : pynum C;
  total_tubes : Z;
  shell_diameter : float;
  tube_velocity_achieved : float
}.

Definition result_of (st : Locals) : SizingResult :=
  {| heat_duty := Q_duty st;
     cooling_water := m_dot_cold st;
     overall_coefficient := U st;
     required_area := A_required st;
     total_tubes := N_total st;
     shell_diameter := D_shell st;
     tube_velocity_achieved := velocity st |}.

Definition size (env : Env) (i : ProcessInputs) : result SizingResult :=
  fmap result_of (run env i).

(** What a successful run has established, line by line. *)
Record Trace (env : Env) (i : ProcessInputs) (st : Locals) : Prop := {
  tr_T_hot_in : T_hot_in st = T_hot_in_C i + 273.15;
  tr_T_hot_out : T_hot_out st = T_hot_out_C i + 273.15;
  tr_T_cold_in : T_cold_in st = T_cold_in_C i + 273.15;
  tr_T_cold_out : T_cold_out st = T_cold_out_C i + 273.15;
  tr_P_hot : P_hot st = P_hot_bar i * 1e5;
  tr_P_cold : P_cold st = P_cold_bar i * 1e5;
  tr_flow : flow_hot_m3_s st = flow_hot_nm3_hr i / 3600;
  tr_rho :
    PropsSI env "D" "T" (T_hot_in st) "P" (P_hot st) "Hydrogen" = Ok (rho_h st);
  tr_Cp :
    PropsSI env "C" "T" (T_hot_in st) "P" (P_hot st) "Hydrogen" = Ok (Cp_h st);
  tr_m_dot_h : m_dot_h st = rho_h st * flow_hot_m3_s st;
  tr_Q : Q_duty st = m_dot_h st * Cp_h st * (T_hot_in st - T_hot_out st);
  tr_water :
    match m_dot_cold_input i with
    | None =>
        exists Cp_w,
          Cp_water st = Some Cp_w /\
          PropsSI env "C" "T" (T_cold_in st) "P" (P_cold st) "Water" = Ok Cp_w /\
          cooling_water_flow (Q_duty st) Cp_w (T_cold_out st) (T_cold_in st)
          = Ok (m_dot_cold st)
    | Some m => Cp_water st = None /\ m_dot_cold st = m
    end;
  tr_area : single_tube_area env (D_i i) = Ok (A_single st);
  tr_tubes :
    tubes_per_pass (m_dot_h st) (rho_h st) (velocity_target i) (A_single st)
    = Ok (N_per_pass st);
  tr_total : N_total st = (N_per_pass st * passes_int (passes i))%Z;
  tr_velocity :
    tube_velocity (m_dot_h st) (rho_h st) (N_per_pass st) (A_single st)
    = Ok (velocity st);
  tr_deltaT1 : deltaT1 st = T_hot_in st - T_cold_out st;
  tr_deltaT2 : deltaT2 st = T_hot_out st - T_cold_in st;
  tr_lmtd : lmtd env (deltaT1 st) (deltaT2 st) = Ok (LMTD st);
  tr_F : F st = correction_factor (passes i);
  tr_area_required :
    np_rdiv (Q_duty st)
      (py_mul (py_mul (U st) (PyFloat (F st))) (PyFloat (LMTD st)))
    = Ok (A_required st)
}.
End Handler.

(** ** What the page shows *)

Inductive cell : Type :=
| CStr (s : string)
| CInt (n : Z)
| CFloat (x : float).

(** The document built by reportlab: a heading and the table. *)
Record datasheet : Type := {
  ds_title : string;
  ds_table : list (list cell)
}.

Inductive element : Type :=
| Header (s : string)
| Subheader (s : string)
| Write (s : string)
| WriteExn (e : exn)
| Error (s : string)
| Success (s : string)
| DownloadButton (label : string) (data : datasheet) (file_name mime : string)
| Dataframe (f : frame)
| Uncaught (e : exn).

Section Display.
Context {C : Type} `{ComplexOps C}.

(** Lines 177-183, each as label, formatted value and unit. *)
Definition screen_rows (st : Locals) : list (string * string * string) :=
  [ ("Heat Duty", format_f 2 (Q_duty st / 1000), " kW");
    ("Cooling Water Flow", format_f 2 (m_dot_cold st), " kg/s");
    ("Overall U", format_num 1 (U st), " W/m²-K");
    ("Required Area", format_num 2 (A_required st), " m²");
    ("Total Tubes", str_int (N_total st), "");
    ("Shell Diameter", format_f 2 (D_shell st), " m");
    ("Tube Velocity", format_f 2 (velocity st), " m/s") ].

Definition screen_line (r : string * string * string) : element :=
  let '(label, value, unit) := r in
  Write (label ++ ": **" ++ value ++ unit ++ "**").

Definition display (st : Locals) : list element :=
  Header "📊 Design Results" :: map screen_line (screen_rows st).

(** Lines 197-206. *)
Definition table_data (i : ProcessInputs) (st : Locals) : list (list cell) :=
  [ [CStr "Parameter"; CStr "Value"];
    [CStr "Hydrogen Flow (Nm3/hr)"; CFloat (flow_hot_nm3_hr i)];
    [CStr "Heat Duty (kW)"; CStr (format_f 2 (Q_duty st / 1000))];
    [CStr "Cooling Water Flow (kg/s)"; CStr (format_f 2 (m_dot_cold st))];
    [CStr "Overall U (W/m2-K)"; CStr (format_num 1 (U st))];
    [CStr "Required Area (m2)"; CStr (format_num 2 (A_required st))];
    [CStr "Total Tubes"; CInt (N_total st)];
    [CStr "Shell Diameter (m)"; CStr (format_f 2 (D_shell st))] ].

Definition pdf (i : ProcessInputs) (st : Locals) : datasheet :=
  {| ds_title := "Hydrogen Gas Cooler Design Datasheet";
     ds_table := table_data i st |}.

(** The body of [if st.button("Run Hydrogen Cooler Design")]: the [try]
    block and its [except Exception]. *)
Definition run_design (env : Env) (i : ProcessInputs) : list element :=
  match run env i with
  | Ok st =>
      (display st ++
       [DownloadButton "📥 Download Design Datasheet (PDF)" (pdf i st)
          "Hydrogen_Gas_Cooler_Datasheet.pdf" "application/pdf"])%list
  | Raise e => [Error "Calculation Error"; WriteExn e]
  end.
End Display.


(** ** The feedback log and the whole script *)

(** What the script reads besides the widgets: [feedback.csv] (absent, or
    the text it holds, byte for byte) and the clock, as the text pandas
    writes for [datetime.now()]. *)
Record World : Type := {
  feedback_csv : option string;
  now : string
}.

(** One rerun of the script: the widget values and which button, if any,
    was pressed. *)
Record UI : Type := {
  inputs : ProcessInputs;
  run_clicked : bool;
  name : string;
  feedback_text : string;
  submit_clicked : bool
}.

Definition truthy (s : string) : bool :=
  match s with
  | EmptyString => false
  | String _ _ => true
  end.

Definition feedback_header : list string := ["Timestamp"; "Name"; "Feedback"].

(** The text the writer produces for a sequence of records. *)
Definition csv_text (env : Env) (records : list (list string)) : string :=
  fold_right (fun r text => csv_row env r ++ text) "" records.

(** The file after the write of lines 268-274.  When the file exists,
    [df.to_csv("feedback.csv", mode='a', header=False, index=False)] opens
    it for appending and writes the record after its last byte, whatever
    that byte is; otherwise [df.to_csv("feedback.csv", index=False)]
    creates it with the header record and the record. *)
Definition to_csv (env : Env) (file : option string) (row : list string)
  : string :=
  match file with
  | Some text => text ++ csv_row env row
  | None => csv_row env feedback_header ++ csv_row env row
  end.

(** Lines 260-276. *)
Definition submit_feedback (env : Env) (ui : UI) (w : World)
  : World * list element :=
  if submit_clicked ui then
    if truthy (name ui) && truthy (feedback_text ui) then
      ({| feedback_csv :=
            Some (to_csv env (feedback_csv w) [now w; name ui; feedback_text ui]);
          now := now w |},
       [Success "Thank you for your feedback!"])
    else (w, [])
  else (w, []).

(** [st.dataframe] on what [pd.read_csv] returned; its exception is not
    caught and ends the rerun. *)
Definition shown (parsed : result frame) : element :=
  match parsed with
  | Ok f => Dataframe f
  | Raise e => Uncaught e
  end.

(** Lines 278-281. *)
Definition show_feedback (env : Env) (w : World) : list element :=
  match feedback_csv w with
  | Some text => [Subheader "📢 Visitor Feedback"; shown (read_csv env text)]
  | None => []
  end.

(** The page after a rerun: what the design section and the feedback
    section have written. *)
Record page : Type := {
  design : list element;
  feedback : list element
}.

Section Script.
Context {C : Type} `{ComplexOps C}.

(** One run of the script, top to bottom.  The static page furniture
    (title, markdown, the input widgets themselves) carries no data and is
    left out. *)
Definition script (env : Env) (ui : UI) (w : World) : World * page :=
  let calc := if run_clicked ui then run_design env (inputs ui) else [] in
  let '(w', thanks) := submit_feedback env ui w in
  (w', {| design := calc;
          feedback := (Header "📝 Feedback & Suggestions"
                       :: thanks ++ show_feedback env w')%list |}).
End Script.

(** ** A reference environment

    An environment to run the model on: a table of typical property values
    for hydrogen and water, series evaluations of the logarithm and the
    power function, the [csv] writer on a POSIX system and a plain reader.
    It stands in for CoolProp, NumPy, libm and pandas without fixing their
    results bit for bit; what is proved on it rests on signs, special
    values and the IEEE operations, and on the text of records without
    special characters. *)

Definition ref_PropsSI (output : string) (_ : string) (T : float) (_ : string)
  (P : float) (fluid : string) : result float :=
  if negb (0 <? T) || negb (0 <? P) then Raise ValueError
  else if String.eqb fluid "Hydrogen" then
    if String.eqb output "D" then Ok 1.0889
    else if String.eqb output "C" then Ok 14430
    else if String.eqb output "V" then Ok 9.9e-6
    else if String.eqb output "L" then Ok 0.2
    else if String.eqb output "PRANDTL" then Ok 0.7
    else Raise ValueError
  else if String.eqb fluid "Water" then
    if String.eqb output "C" then Ok 4178 else Raise ValueError
  else Raise ValueError.

Definition float_of_small (n : Z) : float :=
  if (n <? 0)%Z then - of_uint63 (Uint63.of_Z (- n))
  else of_uint63 (Uint63.of_Z n).

Definition ln2 : float := 0.6931471805599453.

(** [sum_(j<k) z2^j / (2j+1)], by Horner's rule. *)
Fixpoint atanh_terms (k : nat) (z2 acc : float) : float :=
  match k with
  | O => acc
  | S k' => atanh_terms k' z2 (1 / float_of_small (2 * Z.of_nat k' + 1) + z2 * acc)
  end.

Definition ref_log (x : float) : float :=
  if is_nan x || (x <? 0) then nan
  else if x =? 0 then neg_infinity
  else if is_infinity x then infinity
  else
    let (m, e) := Z.frexp x in
    let (m, e) := if m <? 0.7071067811865476 then (2 * m, (e - 1)%Z) else (m, e) in
    let z := (m - 1) / (m + 1) in
    float_of_small e * ln2 + 2 * z * atanh_terms 24 (z * z) 0.

(** [sum_(j<=k) r^j / j!], by Horner's rule. *)
Fixpoint exp_terms (k : nat) (r acc : float) : float :=
  match k with
  | O => acc
  | S k' => exp_terms k' r (1 + r / float_of_small (Z.of_nat k) * acc)
  end.

Definition ref_exp (t : float) : float :=
  if is_nan t then nan
  else if 709.78 <? t then infinity
  else if t <? -745.2 then 0
  else
    match int_ceil (t / ln2 - 0.5) with
    | Ok n => Z.ldexp (exp_terms 26 (t - float_of_small n * ln2) 1) n
    | Raise _ => nan
    end.

(** [pow(x, y)] for a positive finite [x]; a square is the rounded
    product. *)
Definition ref_pow (x y : float) : float :=
  if y =? 2 then x * x else ref_exp (y * ref_log x).

(** The line feed and the quote character. *)
Definition LF : string := String "010" "".
Definition dquote : ascii := "034".

(** The [csv] writer with the dialect [to_csv] gives it (delimiter [,],
    QUOTE_MINIMAL, quotes doubled) and the line terminator [os.linesep] of
    a POSIX system: a field is quoted when it holds the delimiter, the
    quote character or a character of the line terminator; a record of one
    empty field is written as a pair of quotes. *)
Definition special (c : ascii) : bool :=
  Ascii.eqb c "," || Ascii.eqb c dquote || Ascii.eqb c "010".

Fixpoint has_special (s : string) : bool :=
  match s with
  | EmptyString => false
  | String c t => special c || has_special t
  end.

Fixpoint doubled (s : string) : string :=
  match s with
  | EmptyString => EmptyString
  | String c t =>
      if Ascii.eqb c dquote then String c (String c (doubled t))
      else String c (doubled t)
  end.

Definition csv_field (s : string) : string :=
  if has_special s then String dquote (doubled s ++ String dquote "") else s.

Definition ref_csv_row (row : list string) : string :=
  match row with
  | [ EmptyString ] => String dquote (String dquote LF)
  | _ => String.concat "," (map csv_field row) ++ LF
  end.

(** A plain reader, to run the model: it cuts the text at line feeds and
    commas, takes the first line for the column names and fails on an
    empty text.  It knows no quoting and infers nothing; no statement
    depends on what it returns. *)
Fixpoint cut (sep : ascii) (s : string) : list string :=
  match s with
  | EmptyString => [ EmptyString ]
  | String c t =>
      if Ascii.eqb c sep then EmptyString :: cut sep t
      else match cut sep t with
           | f :: fs => String c f :: fs
           | [] => [ String c EmptyString ]
           end
  end.

Definition ref_read_csv (text : string) : result frame :=
  match filter truthy (cut "010" text) with
  | [] => Raise EmptyDataError
  | h :: t => Ok {| columns := cut "," h; rows := map (cut ",") t |}
  end.

Definition ref_env : Env :=
  {| PropsSI := ref_PropsSI; np_log := ref_log; libm_pow := ref_pow;
     csv_row := ref_csv_row; read_csv := ref_read_csv |}.

(** Complex values without parts: enough to run the model where a complex
    number appears, no more. *)
#[export] Instance ref_complex : ComplexOps unit := {
  c_of_float := fun _ => tt;
  c_add := fun _ _ => tt;
  c_mul := fun _ _ => tt;
  c_div := fun _ _ => Ok tt;
  c_pow := fun _ _ => Ok tt;
  c_format := fun _ _ => "(complex)"
}.

(** The default values of the form. *)
Definition default_inputs : ProcessInputs :=
  {| flow_hot_nm3_hr := 750; T_hot_in_C := 80; T_hot_out_C := 40;
     P_hot_bar := 16; T_cold_in_C := 35; T_cold_out_C := 40; P_cold_bar := 3;
     m_dot_cold_input := None;
     D_i := 0.025; t_wall := 0.002; velocity_target := 9; passes := One |}.

(** Inputs the statements below are evaluated at. *)

(** Both terminal temperature differences are 20 K. *)
Definition equal_ends_inputs : ProcessInputs :=
  {| flow_hot_nm3_hr := 750; T_hot_in_C := 80; T_hot_out_C := 40;
     P_hot_bar := 16; T_cold_in_C := 20; T_cold_out_C := 60; P_cold_bar := 3;
     m_dot_cold_input := None;
     D_i := 0.025; t_wall := 0.002; velocity_target := 9; passes := Two |}.

(** A flow for which the raw tube requirement rounds to the integer 17. *)
Definition rounding_inputs : ProcessInputs :=
  {| flow_hot_nm3_hr := 46.939812109300625; T_hot_in_C := 80; T_hot_out_C := 40;
     P_hot_bar := 16; T_cold_in_C := 35; T_cold_out_C := 40; P_cold_bar := 3;
     m_dot_cold_input := None;
     D_i := 0.03125; t_wall := 0.002; velocity_target := 1; passes := Two |}.

(** Hydrogen leaving hotter than it enters. *)
Definition reversed_inputs : ProcessInputs :=
  {| flow_hot_nm3_hr := 750; T_hot_in_C := 40; T_hot_out_C := 80;
     P_hot_bar := 16; T_cold_in_C := 20; T_cold_out_C := 30; P_cold_bar := 3;
     m_dot_cold_input := None;
     D_i := 0.025; t_wall := 0.002; velocity_target := 9; passes := One |}.

(** No hydrogen flow. *)
Definition zero_flow_inputs : ProcessInputs :=
  {| flow_hot_nm3_hr := 0; T_hot_in_C := 80; T_hot_out_C := 40;
     P_hot_bar := 16; T_cold_in_C := 35; T_cold_out_C := 40; P_cold_bar := 3;
     m_dot_cold_input := None;
     D_i := 0.025; t_wall := 0.002; velocity_target := 9; passes := Two |}.



Definition screen_label (r : string * string * string) : string := fst (fst r).
Definition screen_value (r : string * string * string) : string := snd (fst r).



(** A press of "Submit Feedback" with the name left empty, on a system
    where [feedback.csv] does not exist yet. *)
Definition blank_name_click : UI :=
  {| inputs := default_inputs; run_clicked := false;
     name := ""; feedback_text := "Useful tool"; submit_clicked := true |}.

Definition signed_click : UI :=
  {| inputs := default_inputs; run_clicked := false;
     name := "Asha"; feedback_text := "Useful tool"; submit_clicked := true |}.

Definition fresh_world : World :=
  {| feedback_csv := None; now := "2024-05-01 09:30:00.000000" |}.

(** The hydrogen outlet at the cooling-water inlet temperature. *)
Definition pinch_inputs : ProcessInputs :=
  {| flow_hot_nm3_hr := 750; T_hot_in_C := 80; T_hot_out_C := 35;
     P_hot_bar := 16; T_cold_in_C := 35; T_cold_out_C := 40; P_cold_bar := 3;
     m_dot_cold_input := None;
     D_i := 0.025; t_wall := 0.002; velocity_target := 9; passes := Two |}.

(** Two presses of "Run Hydrogen Cooler Design" with the default inputs, in
    different surroundings. *)
Definition design_click : UI :=
  {| inputs := default_inputs; run_clicked := true;
     name := ""; feedback_text := ""; submit_clicked := false |}.

Definition design_click_later : UI :=
  {| inputs := default_inputs; run_clicked := true;
     name := "Asha"; feedback_text := "half-typed"; submit_clicked := false |}.

Definition used_world : World :=
  {| feedback_csv :=
       Some ("Timestamp,Name,Feedback" ++ LF ++
             "2024-05-01 09:30:00.000000,Asha,Useful tool" ++ LF);
     now := "2024-05-02 17:45:10.250000" |}.

(** ** Notions for the further properties *)

(** A float that is a zero or NaN; one that is an infinity or NaN. *)
Definition zero_or_nan (x : float) : Prop :=
  (exists s, Prim2SF x = S754_zero s) \/ Prim2SF x = S754_nan.

Definition inf_or_nan (x : float) : Prop :=
  (exists s, Prim2SF x = S754_infinity s) \/ Prim2SF x = S754_nan.

(** The same inputs with another choice in the [passes] selectbox. *)
Definition with_passes (i : ProcessInputs) (p : tube_passes) : ProcessInputs :=
  {| flow_hot_nm3_hr := flow_hot_nm3_hr i; T_hot_in_C := T_hot_in_C i;
     T_hot_out_C := T_hot_out_C i; P_hot_bar := P_hot_bar i;
     T_cold_in_C := T_cold_in_C i; T_cold_out_C := T_cold_out_C i;
     P_cold_bar := P_cold_bar i; m_dot_cold_input := m_dot_cold_input i;
     D_i := D_i i; t_wall := t_wall i; velocity_target := velocity_target i;
     passes := p |}.

(** A rerun writes to [feedback.csv] when the button was pressed with both
    fields filled in (lines 260-261). *)
Definition accepted (ui : UI) : bool :=
  submit_clicked ui && (truthy (name ui) && truthy (feedback_text ui)).

(** The record of lines 262-266. *)
Definition feedback_row (clock : string) (ui : UI) : list string :=
  [clock; name ui; feedback_text ui].

Definition at_time (w : World) (clock : string) : World :=
  {| feedback_csv := feedback_csv w; now := clock |}.

(** The records a sequence of reruns appends, in order. *)
Definition new_rows (steps : list (string * UI)) : list (list string) :=
  map (fun s => feedback_row (fst s) (snd s))
      (filter (fun s => accepted (snd s)) steps).

(** A file as the script writes it: the text of the header record, then
    that of records of three fields. *)
Definition well_formed (env : Env) (file : option string) : Prop :=
  match file with
  | None => True
  | Some text =>
      exists data, text = csv_text env (feedback_header :: data) /\
                   Forall (fun r => length r = 3%nat) data
  end.

Section Session.
Context {C : Type} `{ComplexOps C}.

(** Streamlit reruns the script on every interaction: a session is a
    sequence of reruns, each at its own time, on the file the previous one
    left. *)
Fixpoint session (env : Env) (steps : list (string * UI)) (w : World) : World :=
  match steps with
  | [] => w
  | (clock, ui) :: rest => session env rest (fst (script env ui (at_time w clock)))
  end.
End Session.

(** Further environments and inputs the statements are evaluated at. *)

(** A provider that returns an infinite density. *)
Definition unbounded_env : Env :=
  {| PropsSI := fun output a T b P fluid =>
       if String.eqb output "D" then Ok infinity
       else ref_PropsSI output a T b P fluid;
     np_log := ref_log; libm_pow := ref_pow;
     csv_row := ref_csv_row; read_csv := ref_read_csv |}.

(** A provider that cannot evaluate the viscosity. *)
Definition no_viscosity_env : Env :=
  {| PropsSI := fun output a T b P fluid =>
       if String.eqb output "V" then Raise ValueError
       else ref_PropsSI output a T b P fluid;
     np_log := ref_log; libm_pow := ref_pow;
     csv_row := ref_csv_row; read_csv := ref_read_csv |}.

(** A provider that knows no water. *)
Definition dry_env : Env :=
  {| PropsSI := fun output a T b P fluid =>
       if String.eqb fluid "Water" then Raise ValueError
       else ref_PropsSI output a T b P fluid;
     np_log := ref_log; libm_pow := ref_pow;
     csv_row := ref_csv_row; read_csv := ref_read_csv |}.

Definition zero_velocity_inputs : ProcessInputs :=
  {| flow_hot_nm3_hr := 750; T_hot_in_C := 80; T_hot_out_C := 40;
     P_hot_bar := 16; T_cold_in_C := 35; T_cold_out_C := 40; P_cold_bar := 3;
     m_dot_cold_input := None;
     D_i := 0.025; t_wall := 0.002; velocity_target := 0; passes := One |}.

(** Cooling water entering and leaving at 35 degrees. *)
Definition isothermal_water_inputs : ProcessInputs :=
  {| flow_hot_nm3_hr := 750; T_hot_in_C := 80; T_hot_out_C := 40;
     P_hot_bar := 16; T_cold_in_C := 35; T_cold_out_C := 35; P_cold_bar := 3;
     m_dot_cold_input := None;
     D_i := 0.025; t_wall := 0.002; velocity_target := 9; passes := One |}.

(** The defaults with the cooling water flow entered by hand. *)
Definition manual_inputs : ProcessInputs :=
  {| flow_hot_nm3_hr := 750; T_hot_in_C := 80; T_hot_out_C := 40;
     P_hot_bar := 16; T_cold_in_C := 35; T_cold_out_C := 40; P_cold_bar := 3;
     m_dot_cold_input := Some 7;
     D_i := 0.025; t_wall := 0.002; velocity_target := 9; passes := One |}.

Definition empty_file_world : World :=
  {| feedback_csv := Some ""; now := "2024-05-03 08:00:00.000000" |}.

(** A file whose last line has no line terminator. *)
Definition unterminated_world : World :=
  {| feedback_csv :=
       Some ("Timestamp,Name,Feedback" ++ LF ++
             "2024-05-01 09:30:00.000000,Asha,Useful tool");
     now := "2024-05-02 17:45:10.250000" |}.

(** The defaults with a cooling-water outlet temperature of 1e308 degrees:
    whatever the specific heat of water (above 1.8 J/kg/K), its product
    with the temperature rise overflows. *)
Definition overflow_inputs : ProcessInputs :=
  {| flow_hot_nm3_hr := 750; T_hot_in_C := 80; T_hot_out_C := 40;
     P_hot_bar := 16; T_cold_in_C := 35; T_cold_out_C := 1e308; P_cold_bar := 3;
     m_dot_cold_input := None;
     D_i := 0.025; t_wall := 0.002; velocity_target := 9; passes := One |}.

(** No hydrogen flow through tubes of 1e154 m: the square of the diameter
    is finite, the tube area is not. *)
Definition wide_tube_inputs : ProcessInputs :=
  {| flow_hot_nm3_hr := 0; T_hot_in_C := 80; T_hot_out_C := 40;
     P_hot_bar := 16; T_cold_in_C := 35; T_cold_out_C := 40; P_cold_bar := 3;
     m_dot_cold_input := None;
     D_i := 1e154; t_wall := 0.002; velocity_target := 9; passes := One |}.

(** * Properties *)

(** ** The error monad *)

Lemma bind_Ok_inv {A B : Type} (c : result A) (k : A -> result B) (b : B) :
  bind c k = Ok b -> exists a, c = Ok a /\ k a = Ok b.
Proof.
  destruct c as [a | e]; simpl; intros Hb.
  - exists a. split; [reflexivity | exact Hb].
  - discriminate Hb.
Qed.

Lemma raises_Raise {A : Type} (e : exn) : raises (@Raise A e).
Proof. exists e. reflexivity. Qed.

Lemma raises_not_Ok {A : Type} (c : result A) (a : A) : raises c -> c <> Ok a.
Proof. intros [e He] Ha. rewrite He in Ha. discriminate Ha. Qed.

(** One line of the handler: it raises, or the run goes on with its value. *)
Ltac run_step :=
  match goal with
  | |- raises (bind ?c _) =>
      let E := fresh "E" in
      destruct c eqn:E; [ cbn [bind] | apply raises_Raise ]
  end.

(** A successful run gives a value on every line. *)
Ltac run_inv H :=
  repeat match type of H with
         | bind ?c _ = Ok _ =>
             let a := fresh "v" in
             let E := fresh "E" in
             apply bind_Ok_inv in H; destruct H as (a & E & H)
         end.

(** ** Binary64 facts *)

Lemma Prim2SF_zero : Prim2SF 0 = S754_zero false.
Proof. reflexivity. Qed.

Lemma Prim2SF_infinity : Prim2SF infinity = S754_infinity false.
Proof. reflexivity. Qed.

(** A float that compares equal to zero is one of the two zeros. *)
Lemma eqb_zero_inv (x : float) :
  (x =? 0) = true -> exists s, Prim2SF x = S754_zero s.
Proof.
  rewrite FloatAxioms.eqb_spec, Prim2SF_zero. unfold SFeqb.
  destruct (Prim2SF x) as [s | s | | s m e]; simpl; intros Hx.
  - exists s. reflexivity.
  - destruct s; discriminate Hx.
  - discriminate Hx.
  - destruct s; discriminate Hx.
Qed.

Lemma zero_eqb (x : float) (s : bool) :
  Prim2SF x = S754_zero s -> (x =? 0) = true.
Proof.
  intros Hx. rewrite FloatAxioms.eqb_spec, Prim2SF_zero, Hx. reflexivity.
Qed.

(** A positive float below infinity is a finite one with a clear sign bit. *)
Lemma positive_finite_inv (x : float) :
  (0 <? x) = true -> (x <? infinity) = true ->
  exists m e, Prim2SF x = S754_finite false m e.
Proof.
  rewrite !FloatAxioms.ltb_spec, Prim2SF_zero, Prim2SF_infinity. unfold SFltb.
  destruct (Prim2SF x) as [s | s | | s m e]; simpl; intros Hpos Hfin;
    try discriminate Hpos.
  - destruct s; [ discriminate Hpos | discriminate Hfin ].
  - destruct s; [ discriminate Hpos | ]. exists m, e. reflexivity.
Qed.

Lemma positive_nonzero (x : float) : (0 <? x) = true -> (x =? 0) = false.
Proof.
  rewrite FloatAxioms.ltb_spec, FloatAxioms.eqb_spec, Prim2SF_zero.
  unfold SFltb, SFeqb.
  destruct (Prim2SF x) as [s | s | | s m e]; simpl; intros Hpos;
    try discriminate Hpos; destruct s; try discriminate Hpos; reflexivity.
Qed.

Lemma zero_div_3600 (x : float) (s : bool) :
  Prim2SF x = S754_zero s -> Prim2SF (x / 3600) = S754_zero s.
Proof.
  intros Hx. rewrite FloatAxioms.div_spec, Hx.
  change (Prim2SF 3600) with (S754_finite false 7916483719987200 (-41)).
  simpl. destruct s; reflexivity.
Qed.

Lemma finite_mul_zero (x z : float) (m : positive) (e : Z) (s : bool) :
  Prim2SF x = S754_finite false m e -> Prim2SF z = S754_zero s ->
  Prim2SF (x * z) = S754_zero s.
Proof. intros Hx Hz. rewrite FloatAxioms.mul_spec, Hx, Hz. reflexivity. Qed.

Lemma zero_mul_finite (z x : float) (m : positive) (e : Z) (s : bool) :
  Prim2SF z = S754_zero s -> Prim2SF x = S754_finite false m e ->
  Prim2SF (z * x) = S754_zero s.
Proof.
  intros Hz Hx. rewrite FloatAxioms.mul_spec, Hx, Hz. simpl.
  destruct s; reflexivity.
Qed.

(** Zero divided by anything is a zero or NaN. *)
Lemma zero_div (z d : float) (s : bool) :
  Prim2SF z = S754_zero s ->
  (exists s', Prim2SF (z / d) = S754_zero s') \/ Prim2SF (z / d) = S754_nan.
Proof.
  intros Hz. rewrite FloatAxioms.div_spec, Hz.
  destruct (Prim2SF d) as [sd | sd | | sd md ed]; simpl.
  - right. reflexivity.
  - left. eexists. reflexivity.
  - right. reflexivity.
  - left. eexists. reflexivity.
Qed.

Lemma zero_div_positive (z d : float) (s : bool) :
  Prim2SF z = S754_zero s -> (0 <? d) = true ->
  Prim2SF (z / d) = S754_zero s.
Proof.
  intros Hz. rewrite FloatAxioms.div_spec, Hz, FloatAxioms.ltb_spec, Prim2SF_zero.
  unfold SFltb.
  destruct (Prim2SF d) as [sd | sd | | sd md ed]; simpl; intros Hpos;
    try discriminate Hpos; destruct sd; try discriminate Hpos;
    destruct s; reflexivity.
Qed.

Lemma truediv_Ok (x y q : float) :
  truediv x y = Ok q -> (y =? 0) = false /\ q = x / y.
Proof.
  unfold truediv. destruct (y =? 0); intros Hq.
  - discriminate Hq.
  - injection Hq as <-. split; reflexivity.
Qed.

Lemma float_of_int_0 : float_of_int 0 = Ok 0.
Proof. reflexivity. Qed.

(** *** The ceiling *)

Lemma pos_pow2 (k : Z) : (0 < k)%Z -> Z.pos (2 ^ Z.to_pos k) = (2 ^ k)%Z.
Proof.
  intros Hk. rewrite Pos2Z.inj_pow. rewrite Z2Pos.id by exact Hk. reflexivity.
Qed.

(** [SFint_ceil] is the ceiling of the exact value: the least integer not
    below it. *)
Lemma SFint_ceil_bounds (x : spec_float) (N : Z) :
  SFint_ceil x = Ok N ->
  (inject_Z N - 1 < SF2Q x /\ SF2Q x <= inject_Z N)%Q.
Proof.
  destruct x as [s | s | | s m e]; simpl; intros HN; try discriminate HN.
  - injection HN as <-. split; [reflexivity | apply Qle_refl].
  - injection HN as <-.
    destruct (0 <=? e)%Z eqn:He.
    + split; [ | apply Qle_refl ].
      unfold Qlt, Qminus, Qplus, Qopp, inject_Z; simpl. lia.
    + apply Z.leb_gt in He.
      assert (Hd : (0 < 2 ^ (- e))%Z) by (apply Z.pow_pos_nonneg; lia).
      pose proof (Z.div_mod (- signed s m) (2 ^ (- e)) ltac:(lia)) as Hdm.
      pose proof (Z.mod_pos_bound (- signed s m) (2 ^ (- e)) Hd) as Hr.
      unfold Qlt, Qle, Qminus, Qplus, Qopp, inject_Z.
      cbn [Qnum Qden]. rewrite pos_pow2 by lia.
      split; nia.
Qed.

Lemma int_ceil_finite (x : float) (N : Z) :
  int_ceil x = Ok N -> finite_float x = true.
Proof.
  unfold int_ceil, finite_float.
  destruct (Prim2SF x); simpl; intros HN; try reflexivity; discriminate HN.
Qed.

Lemma int_ceil_zero (x : float) (s : bool) :
  Prim2SF x = S754_zero s -> int_ceil x = Ok 0%Z.
Proof. intros Hx. unfold int_ceil. rewrite Hx. reflexivity. Qed.

Lemma int_ceil_nan (x : float) :
  Prim2SF x = S754_nan -> int_ceil x = Raise ValueError.
Proof. intros Hx. unfold int_ceil. rewrite Hx. reflexivity. Qed.

(** *** Powers *)

(** An integral exponent never takes [float_pow] to the complex power, so
    [float_pow_int] has no [TypeError]. *)
Lemma float_pow_real_integer (pw : float -> float -> float) (iv iw : float) :
  is_integer iw = true -> float_pow_real pw iv iw <> None.
Proof.
  intros Hint. unfold float_pow_real. rewrite Hint, andb_false_r.
  repeat match goal with
         | |- context [if ?b then _ else _] => destruct b
         end; discriminate.
Qed.

Lemma float_pow_int_square (pw : float -> float -> float) (iv : float) :
  float_pow_int pw iv 2 <> Raise TypeError.
Proof.
  unfold float_pow_int.
  destruct (float_pow_real pw iv 2) as [r | ] eqn:Hreal.
  - revert Hreal. unfold float_pow_real.
    change (is_integer 2) with true. rewrite andb_false_r.
    repeat match goal with
           | |- context [if ?b then _ else _] => destruct b
           end; intros Hreal; injection Hreal as <-; discriminate.
  - contradiction (float_pow_real_integer pw iv 2 eq_refl Hreal).
Qed.

(** *** The Python primitives at a few values *)

Example format_f_half_even : format_f 2 0.125 = "0.12" /\ format_f 2 0.375 = "0.38".
Proof. split; reflexivity. Qed.

Example format_f_exact_value : format_f 2 2.675 = "2.67".
Proof. reflexivity. Qed.

Example format_f_negative_zero : format_f 2 (-0.001) = "-0.00".
Proof. reflexivity. Qed.

Example format_f_special : format_f 2 (0 / 0) = "nan" /\ format_f 1 (-1 / 0) = "-inf".
Proof. split; reflexivity. Qed.

Example int_ceil_values :
  int_ceil 47.15702017537639 = Ok 48%Z /\
  int_ceil (-0.5) = Ok 0%Z /\
  int_ceil (-1.5) = Ok (-1)%Z /\
  int_ceil (0 / 0) = Raise ValueError /\
  int_ceil (1 / 0) = Raise OverflowError.
Proof. repeat split; reflexivity. Qed.

Example float_of_int_rounds :
  float_of_int 9007199254740993 = Ok 9007199254740992 /\
  float_of_int (2 ^ 1024) = Raise OverflowError.
Proof. split; vm_compute; reflexivity. Qed.

Example truediv_zero : truediv 1 (-0) = Raise ZeroDivisionError.
Proof. reflexivity. Qed.

Example ref_log_one : ref_log 1 = 0.
Proof. vm_compute. reflexivity. Qed.

Example ref_log_negative : is_nan (ref_log (-2)) = true.
Proof. vm_compute. reflexivity. Qed.

(** ** The tube design on binary64 *)

(** With no mass flow the tube count, where it is computed, is zero. *)
Lemma tubes_per_pass_zero_flow (m rho vt A : float) (s : bool) (N : Z) :
  Prim2SF m = S754_zero s ->
  tubes_per_pass m rho vt A = Ok N -> N = 0%Z.
Proof.
  intros Hm. unfold tubes_per_pass. cbn [num_div num_mul num_ceil py_float].
  unfold truediv. destruct (rho * vt * A =? 0); cbn [bind]; intros HN.
  - discriminate HN.
  - destruct (zero_div m (rho * vt * A) s Hm) as [[s' Hz] | Hnan].
    + rewrite (int_ceil_zero _ _ Hz) in HN. injection HN as <-. reflexivity.
    + rewrite (int_ceil_nan _ Hnan) in HN. discriminate HN.
Qed.

Lemma tubes_per_pass_zero_flow_positive (m rho vt A : float) (s : bool) :
  Prim2SF m = S754_zero s -> (0 <? rho * vt * A) = true ->
  tubes_per_pass m rho vt A = Ok 0%Z.
Proof.
  intros Hm Hpos. unfold tubes_per_pass. cbn [num_div num_mul num_ceil py_float].
  unfold truediv. rewrite (positive_nonzero _ Hpos). cbn [bind].
  apply (int_ceil_zero _ s). apply zero_div_positive; assumption.
Qed.

(** With no tubes the velocity line divides by zero. *)
Lemma tube_velocity_no_tubes (m rho A : float) (mr ma : positive) (er ea : Z) :
  Prim2SF rho = S754_finite false mr er ->
  Prim2SF A = S754_finite false ma ea ->
  tube_velocity m rho 0 A = Raise ZeroDivisionError.
Proof.
  intros Hrho HA. unfold tube_velocity. cbn [num_of_int num_div num_mul py_float].
  rewrite float_of_int_0. cbn [bind]. unfold truediv.
  assert (Hz : Prim2SF (rho * 0 * A) = S754_zero false).
  { apply (zero_mul_finite _ _ ma ea); [ | exact HA ].
    apply (finite_mul_zero _ _ mr er); [ exact Hrho | reflexivity ]. }
  rewrite (zero_eqb _ _ Hz). reflexivity.
Qed.

(** ** The tube design and the water balance in exact arithmetic *)

Lemma exact_div_Ok (x y : QArith_base.Q) :
  ~ (y == 0)%Q -> num_div (PyArith := py_exact) x y = Ok (x / y)%Q.
Proof.
  intros Hy. cbn [num_div py_exact].
  destruct (Qeq_bool y 0) eqn:E; [ | reflexivity ].
  apply Qeq_bool_iff in E. contradiction.
Qed.

Lemma exact_div_zero (x y : QArith_base.Q) :
  (y == 0)%Q -> num_div (PyArith := py_exact) x y = Raise ZeroDivisionError.
Proof.
  intros Hy. cbn [num_div py_exact].
  apply Qeq_bool_iff in Hy. rewrite Hy. reflexivity.
Qed.

Lemma exact_energy_balance (Qd Cp T_out T_in : QArith_base.Q) :
  ~ (Cp * (T_out - T_in) == 0)%Q ->
  exists flow,
    cooling_water_flow Qd Cp T_out T_in = Ok flow /\
    (flow * Cp * (T_out - T_in) == Qd)%Q.
Proof.
  intros Hd. exists (Qd / (Cp * (T_out - T_in)))%Q. split.
  - unfold cooling_water_flow. cbn [num_mul num_sub py_exact].
    apply exact_div_Ok. exact Hd.
  - field. split; intros Hz; apply Hd; rewrite Hz; ring.
Qed.

Lemma exact_velocity_bound (m rho vt A : QArith_base.Q) :
  (0 < m)%Q -> (0 < rho)%Q -> (0 < vt)%Q -> (0 < A)%Q ->
  exists N v,
    tubes_per_pass m rho vt A = Ok N /\
    (1 <= N)%Z /\
    (m / (rho * vt * A) <= inject_Z N)%Q /\
    tube_velocity m rho N A = Ok v /\
    (v <= vt)%Q.
Proof.
  intros Hm Hrho Hvt HA.
  assert (Hden : (0 < rho * vt * A)%Q).
  { apply Qmult_lt_0_compat; [ apply Qmult_lt_0_compat | ]; assumption. }
  set (raw := (m / (rho * vt * A))%Q).
  assert (Hraw : (0 < raw)%Q).
  { unfold raw. apply Qlt_shift_div_l; [ exact Hden | ]. lra. }
  pose proof (Qle_ceiling raw) as Hceil.
  set (N := Qceiling raw) in *.
  assert (HN : (0 < inject_Z N)%Q) by lra.
  assert (HN1 : (1 <= N)%Z).
  { assert (0 < N)%Z; [ | lia ]. rewrite Zlt_Qlt. exact HN. }
  assert (Hden2 : (0 < rho * inject_Z N * A)%Q).
  { apply Qmult_lt_0_compat; [ apply Qmult_lt_0_compat | ]; assumption. }
  exists N, (m / (rho * inject_Z N * A))%Q.
  split.
  { unfold tubes_per_pass. cbn [num_mul num_ceil py_exact].
    rewrite exact_div_Ok by lra. reflexivity. }
  split; [ exact HN1 | ].
  split; [ exact Hceil | ].
  split.
  { unfold tube_velocity. cbn [num_mul num_of_int py_exact bind].
    apply exact_div_Ok. lra. }
  apply Qle_shift_div_r; [ exact Hden2 | ].
  assert (Hm' : (m == raw * (rho * vt * A))%Q).
  { unfold raw. field. lra. }
  rewrite Hm' at 1.
  setoid_replace (vt * (rho * inject_Z N * A))%Q
    with (inject_Z N * (rho * vt * A))%Q by ring.
  apply Qmult_le_compat_r; [ exact Hceil | lra ].
Qed.

(** ** The handler *)

Section HandlerProperties.
Context {C : Type} `{ComplexOps C}.


Lemma run_design_Raise (env : Env) (i : ProcessInputs) (e : exn) :
  run env i = Raise e ->
  run_design env i = [Error "Calculation Error"; WriteExn e].
Proof. intros Hrun. unfold run_design. rewrite Hrun. reflexivity. Qed.

Lemma run_Ok_inv (env : Env) (i : ProcessInputs) (st : Locals) :
  run env i = Ok st -> Trace env i st.
Proof.
  unfold run. cbv zeta. intros Hrun. run_inv Hrun.
  injection Hrun as <-.
  constructor; cbn; try assumption; try reflexivity.
  destruct (m_dot_cold_input i) as [m | ].
  - match goal with E : Ok _ = Ok _ |- _ => injection E as <- end.
    split; reflexivity.
  - match goal with
    | E : bind _ _ = Ok _ |- _ => run_inv E; injection E as <-
    end.
    eexists. repeat split; eassumption.
Qed.

(** *** The LMTD step *)

Lemma lmtd_zero_divisor (env : Env) (dT1 dT2 : float) :
  (dT2 =? 0) = true -> lmtd env dT1 dT2 = Raise ZeroDivisionError.
Proof. intros Hz. unfold lmtd, truediv. rewrite Hz. reflexivity. Qed.

Lemma lmtd_returns (env : Env) (dT1 dT2 : float) :
  (dT2 =? 0) = false ->
  lmtd env dT1 dT2 = Ok ((dT1 - dT2) / np_log env (dT1 / dT2)).
Proof. intros Hz. unfold lmtd, truediv. rewrite Hz. reflexivity. Qed.

Lemma run_raises_on_zero_deltaT2 (env : Env) (i : ProcessInputs) :
  ((T_hot_out_C i + 273.15) - (T_cold_in_C i + 273.15) =? 0) = true ->
  raises (run env i).
Proof.
  intros Hz. unfold run. cbv zeta.
  do 13 run_step.
  rewrite (lmtd_zero_divisor env _ _ Hz). apply raises_Raise.
Qed.

(** C1 (amended).  The LMTD step fails exactly when deltaT2 is zero: the
    run then ends in the error branch (the LMTD line raises
    ZeroDivisionError if no earlier line has raised).  When deltaT2 is
    not zero the LMTD line raises nothing, whatever the signs of deltaT1
    and deltaT2 and also when they are equal: it returns the binary64
    value (deltaT1 - deltaT2) / log(deltaT1/deltaT2), which may be NaN or
    infinite. *)
Theorem lmtd_fails_iff_deltaT2_zero (env : Env) (i : ProcessInputs) :
  let deltaT1 := (T_hot_in_C i + 273.15) - (T_cold_out_C i + 273.15) in
  let deltaT2 := (T_hot_out_C i + 273.15) - (T_cold_in_C i + 273.15) in
  ((deltaT2 =? 0) = true ->
     lmtd env deltaT1 deltaT2 = Raise ZeroDivisionError /\
     raises (run env i) /\
     exists e, run_design env i = [Error "Calculation Error"; WriteExn e])
  /\
  ((deltaT2 =? 0) = false ->
     lmtd env deltaT1 deltaT2
     = Ok ((deltaT1 - deltaT2) / np_log env (deltaT1 / deltaT2))).
Proof.
  cbv zeta. split.
  - intros Hz. split; [ | split ].
    + apply lmtd_zero_divisor. exact Hz.
    + apply run_raises_on_zero_deltaT2. exact Hz.
    + destruct (run_raises_on_zero_deltaT2 env i Hz) as [e He].
      exists e. apply run_design_Raise. exact He.
  - intros Hz. apply lmtd_returns. exact Hz.
Qed.

(** *** The tube count *)

(** C2.  On every successful run the tubes-per-pass count is the ceiling
    of the raw requirement raw = m_dot_h / (rho_h * velocity_target *
    A_single), where A_single = pi * D_i**2 / 4: it is the integer N with
    N - 1 < raw <= N, so N_per_pass >= raw; and the total tube count is
    N_per_pass times the number of passes. *)
Theorem tube_count_is_ceiling (env : Env) (i : ProcessInputs) (st : Locals) :
  run env i = Ok st ->
  let raw := m_dot_h st / (rho_h st * velocity_target i * A_single st) in
  (exists D_i_sq, float_pow_int (libm_pow env) (D_i i) 2 = Ok D_i_sq /\
                  A_single st = np_pi * D_i_sq / 4) /\
  finite_float raw = true /\
  int_ceil raw = Ok (N_per_pass st) /\
  (inject_Z (N_per_pass st) - 1 < F2Q raw /\
   F2Q raw <= inject_Z (N_per_pass st))%Q /\
  N_total st = (N_per_pass st * passes_int (passes i))%Z.
Proof.
  intros Hrun. cbv zeta.
  pose proof (run_Ok_inv env i st Hrun) as Htr.
  pose proof (tr_area _ _ _ Htr) as Harea.
  pose proof (tr_tubes _ _ _ Htr) as Htubes.
  unfold single_tube_area in Harea.
  apply bind_Ok_inv in Harea. destruct Harea as (D_i_sq & Hsq & Harea).
  injection Harea as Harea.
  unfold tubes_per_pass in Htubes.
  apply bind_Ok_inv in Htubes. destruct Htubes as (raw & Hraw & Hceil).
  cbn [num_div num_ceil num_mul py_float] in Hraw, Hceil.
  apply truediv_Ok in Hraw. destruct Hraw as [_ ->].
  split; [ exists D_i_sq; split; [ exact Hsq | symmetry; exact Harea ] | ].
  split; [ exact (int_ceil_finite _ _ Hceil) | ].
  split; [ exact Hceil | ].
  split; [ exact (SFint_ceil_bounds _ _ Hceil) | exact (tr_total _ _ _ Htr) ].
Qed.

(** *** The correction factor *)

(** C5.  On every successful run the LMTD correction factor F is exactly
    1.0 when the number of passes is 1, and exactly 0.85 when it is 2 or
    4. *)
Theorem correction_factor_by_passes (env : Env) (i : ProcessInputs) (st : Locals) :
  run env i = Ok st ->
  (passes i = One -> F st = 1) /\
  (passes i = Two \/ passes i = Four -> F st = 0.85).
Proof.
  intros Hrun. rewrite (tr_F _ _ _ (run_Ok_inv env i st Hrun)). split.
  - intros ->. reflexivity.
  - intros [-> | ->]; reflexivity.
Qed.

(** *** The achieved velocity *)

(** C3 (amended).  On every successful run the achieved velocity is the
    binary64 quotient m_dot_h / (rho_h * N_per_pass * A_single), with a
    non-zero divisor.  Read in exact arithmetic, the tube-design lines
    keep it at or below the target: for positive mass flow, density,
    target velocity and tube area they return a tube count N >= 1 that
    is at least the raw requirement, and a velocity that is at most the
    target.  (In binary64 the last bit of the computed velocity can lie
    above the target.) *)
Theorem velocity_within_target_exact :
  (forall (env : Env) (i : ProcessInputs) (st : Locals),
     run env i = Ok st ->
     exists n,
       float_of_int (N_per_pass st) = Ok n /\
       (rho_h st * n * A_single st =? 0) = false /\
       velocity st = m_dot_h st / (rho_h st * n * A_single st))
  /\
  (forall m rho vt A : QArith_base.Q,
     (0 < m)%Q -> (0 < rho)%Q -> (0 < vt)%Q -> (0 < A)%Q ->
     exists N v,
       tubes_per_pass m rho vt A = Ok N /\
       (1 <= N)%Z /\
       (m / (rho * vt * A) <= inject_Z N)%Q /\
       tube_velocity m rho N A = Ok v /\
       (v <= vt)%Q).
Proof.
  split.
  - intros env i st Hrun.
    pose proof (tr_velocity _ _ _ (run_Ok_inv env i st Hrun)) as Hvel.
    unfold tube_velocity in Hvel.
    apply bind_Ok_inv in Hvel. destruct Hvel as (n & Hn & Hvel).
    cbn [num_of_int num_div num_mul py_float] in Hn, Hvel.
    apply truediv_Ok in Hvel. destruct Hvel as [Hnz Hv].
    exists n. split; [ exact Hn | split; [ exact Hnz | exact Hv ] ].
  - exact exact_velocity_bound.
Qed.

(** *** The cooling-water balance *)

(** C4 (amended).  On every successful run through the auto-water branch
    the cooling water flow is the binary64 quotient
    Q / (Cp_water * (T_cold_out - T_cold_in)), with a non-zero divisor.
    Read in exact arithmetic, that line solves the energy balance
    exactly: whenever the divisor is not zero,
    flow * Cp_water * (T_cold_out - T_cold_in) equals Q, and when it is
    zero the line raises ZeroDivisionError.  (In binary64 the product
    recomputed from the computed flow need not be Q: it is 0 or NaN when
    the divisor has overflowed.) *)
Theorem water_balance_exact :
  (forall (env : Env) (i : ProcessInputs) (st : Locals),
     run env i = Ok st ->
     auto_water i = true ->
     exists Cp_w,
       Cp_water st = Some Cp_w /\
       (Cp_w * (T_cold_out st - T_cold_in st) =? 0) = false /\
       m_dot_cold st = Q_duty st / (Cp_w * (T_cold_out st - T_cold_in st)))
  /\
  (forall Qd Cp T_out T_in : QArith_base.Q,
     ~ (Cp * (T_out - T_in) == 0)%Q ->
     exists flow,
       cooling_water_flow Qd Cp T_out T_in = Ok flow /\
       (flow * Cp * (T_out - T_in) == Qd)%Q)
  /\
  (forall Qd Cp T_out T_in : QArith_base.Q,
     (Cp * (T_out - T_in) == 0)%Q ->
     cooling_water_flow Qd Cp T_out T_in = Raise ZeroDivisionError).
Proof.
  split; [ | split ].
  - intros env i st Hrun Hauto.
    pose proof (tr_water _ _ _ (run_Ok_inv env i st Hrun)) as Hwater.
    unfold auto_water in Hauto.
    destruct (m_dot_cold_input i) as [m | ]; [ discriminate Hauto | ].
    destruct Hwater as (Cp_w & HCp & _ & Hflow).
    unfold cooling_water_flow in Hflow.
    cbn [num_div num_mul num_sub py_float] in Hflow.
    apply truediv_Ok in Hflow. destruct Hflow as [Hnz Hv].
    exists Cp_w. split; [ exact HCp | split; [ exact Hnz | exact Hv ] ].
  - exact exact_energy_balance.
  - intros Qd Cp T_out T_in Hz. unfold cooling_water_flow.
    cbn [num_mul num_sub py_exact]. apply exact_div_zero. exact Hz.
Qed.

(** *** No hydrogen flow *)

(** C10 (amended).  With a hydrogen flow of zero, a positive and finite
    density, a positive target velocity and a positive and finite tube
    area, the tube count is 0 wherever the tube-count line returns (it
    returns when rho_h * velocity_target * A_single is positive, that is,
    has not underflowed to zero; otherwise that line raises), the
    velocity line with no tubes divides by zero and raises
    ZeroDivisionError, and the handler's except branch reports the error:
    no run of the handler returns a result. *)
Theorem zero_flow_is_an_error (env : Env) (i : ProcessInputs) (rho A : float) :
  (flow_hot_nm3_hr i =? 0) = true ->
  PropsSI env "D" "T" (T_hot_in_C i + 273.15) "P" (P_hot_bar i * 1e5) "Hydrogen"
    = Ok rho ->
  (0 <? rho) = true -> (rho <? infinity) = true ->
  (0 <? velocity_target i) = true ->
  single_tube_area env (D_i i) = Ok A ->
  (0 <? A) = true -> (A <? infinity) = true ->
  let m_dot_h := rho * (flow_hot_nm3_hr i / 3600) in
  (forall N, tubes_per_pass m_dot_h rho (velocity_target i) A = Ok N -> N = 0%Z) /\
  ((0 <? rho * velocity_target i * A) = true ->
     tubes_per_pass m_dot_h rho (velocity_target i) A = Ok 0%Z) /\
  tube_velocity m_dot_h rho 0 A = Raise ZeroDivisionError /\
  (forall st, run env i <> Ok st) /\
  exists e, run env i = Raise e /\
            run_design env i = [Error "Calculation Error"; WriteExn e].
Proof.
  intros Hflow Hrho Hrho_pos Hrho_fin Hvt HA HA_pos HA_fin. cbv zeta.
  destruct (eqb_zero_inv _ Hflow) as [s Hs].
  destruct (positive_finite_inv _ Hrho_pos Hrho_fin) as (mr & er & Hr).
  destruct (positive_finite_inv _ HA_pos HA_fin) as (ma & ea & Ha).
  assert (Hm : Prim2SF (rho * (flow_hot_nm3_hr i / 3600)) = S754_zero s).
  { apply (finite_mul_zero _ _ mr er); [ exact Hr | ].
    apply zero_div_3600. exact Hs. }
  assert (Hvel : tube_velocity (rho * (flow_hot_nm3_hr i / 3600)) rho 0 A
                 = Raise ZeroDivisionError).
  { apply (tube_velocity_no_tubes _ _ _ mr ma er ea); assumption. }
  assert (Hraise : raises (run env i)).
  { unfold run. cbv zeta. rewrite Hrho. cbn [bind].
    do 5 run_step. rewrite HA. cbn [bind].
    match goal with
    | |- raises (bind ?c _) => destruct c as [N | e] eqn:EN
    end; [ cbn [bind] | apply raises_Raise ].
    rewrite (tubes_per_pass_zero_flow _ _ _ _ s N Hm EN), Hvel.
    apply raises_Raise. }
  split; [ intros N; apply (tubes_per_pass_zero_flow _ _ _ _ s); exact Hm | ].
  split; [ intros Hpos;
           apply (tubes_per_pass_zero_flow_positive _ _ _ _ s); assumption | ].
  split; [ exact Hvel | ].
  split; [ intros st; apply raises_not_Ok; exact Hraise | ].
  destruct Hraise as [e He]. exists e.
  split; [ exact He | apply run_design_Raise; exact He ].
Qed.
End HandlerProperties.

(** ** The page *)

Section PageProperties.
Context {C : Type} `{ComplexOps C}.

(** C6.  The sizing is a function of the ProcessInputs alone (the
    property provider being a fixed function): two reruns with the same
    inputs give the same seven result fields and the same design section,
    whatever the feedback widgets, the clock and feedback.csv hold. *)
Theorem sizing_deterministic (env : Env) (ui1 ui2 : UI) (w1 w2 : World) :
  inputs ui1 = inputs ui2 ->
  run_clicked ui1 = run_clicked ui2 ->
  size env (inputs ui1) = size env (inputs ui2) /\
  design (snd (script env ui1 w1)) = design (snd (script env ui2 w2)).
Proof.
  intros Hin Hclick. split.
  - rewrite Hin. reflexivity.
  - unfold script.
    destruct (submit_feedback env ui1 w1) as [w1' out1].
    destruct (submit_feedback env ui2 w2) as [w2' out2].
    cbn [snd design]. rewrite Hin, Hclick. reflexivity.
Qed.

End PageProperties.

(** ** The feedback log *)

Lemma truthy_false (s : string) : truthy s = false <-> s = "".
Proof.
  destruct s; simpl; split; intros Hs; try reflexivity; discriminate Hs.
Qed.

Lemma truthy_true (s : string) : truthy s = true <-> s <> "".
Proof.
  destruct s; simpl; split; intros Hs; try reflexivity.
  - discriminate Hs.
  - contradiction Hs. reflexivity.
  - discriminate.
Qed.

Lemma append_nil_r (s : string) : s ++ "" = s.
Proof. induction s as [ | c s IH]; simpl; [ | rewrite IH ]; reflexivity. Qed.

Lemma append_assoc (s t u : string) : (s ++ t) ++ u = s ++ t ++ u.
Proof. induction s as [ | c s IH]; simpl; [ | rewrite IH ]; reflexivity. Qed.

Lemma csv_text_app (env : Env) (a b : list (list string)) :
  csv_text env (a ++ b) = csv_text env a ++ csv_text env b.
Proof.
  induction a as [ | r a IH]; cbn [csv_text fold_right app].
  - reflexivity.
  - fold (csv_text env (a ++ b)). fold (csv_text env a).
    rewrite IH, append_assoc. reflexivity.
Qed.

Lemma csv_text_one (env : Env) (r : list string) :
  csv_text env [r] = csv_row env r.
Proof. cbn [csv_text fold_right]. apply append_nil_r. Qed.

Lemma submit_feedback_file (env : Env) (ui : UI) (w : World) :
  feedback_csv (fst (submit_feedback env ui w)) =
  if accepted ui
  then Some (to_csv env (feedback_csv w) (feedback_row (now w) ui))
  else feedback_csv w.
Proof.
  unfold submit_feedback, accepted.
  destruct (submit_clicked ui); [ | reflexivity ].
  destruct (truthy (name ui) && truthy (feedback_text ui)); reflexivity.
Qed.

(** Only an accepted press says thanks. *)
Lemma submit_feedback_thanks (env : Env) (ui : UI) (w : World) :
  snd (submit_feedback env ui w) =
  if accepted ui then [Success "Thank you for your feedback!"] else [].
Proof.
  unfold submit_feedback, accepted.
  destruct (submit_clicked ui); [ | reflexivity ].
  destruct (truthy (name ui) && truthy (feedback_text ui)); reflexivity.
Qed.

Section FeedbackProperties.
Context {C : Type} `{ComplexOps C}.

Lemma script_world (env : Env) (ui : UI) (w : World) :
  fst (script env ui w) = fst (submit_feedback env ui w).
Proof.
  unfold script. destruct (submit_feedback env ui w) as [w' out]. reflexivity.
Qed.

Lemma script_feedback (env : Env) (ui : UI) (w : World) :
  feedback (snd (script env ui w))
  = (Header "📝 Feedback & Suggestions"
     :: snd (submit_feedback env ui w)
        ++ show_feedback env (fst (submit_feedback env ui w)))%list.
Proof.
  unfold script. destruct (submit_feedback env ui w) as [w' out]. reflexivity.
Qed.

(** C8 (amended).  A press of "Submit Feedback" with a non-empty name and
    a non-empty feedback text writes the text of one record (timestamp,
    name, feedback): after the last byte of feedback.csv when the file
    exists, whatever it holds, and after the text of the header record
    Timestamp, Name, Feedback in a new file when it does not.  A file
    that held the text of a sequence of records then holds the text of
    that sequence followed by the new record.  A press with the name or
    the feedback text empty, and a rerun without a press, leave the file
    as it is.  At the end of every rerun a file that is
    present is handed to pd.read_csv as it then stands, the new record
    included, and the page ends with what that returns: the table when it
    returns one, its exception, uncaught, when it raises.  When no file is
    present the feedback section shows nothing. *)
Theorem feedback_log (env : Env) (ui : UI) (w : World) :
  let w' := fst (script env ui w) in
  let record := csv_row env [now w; name ui; feedback_text ui] in
  (submit_clicked ui = true -> name ui <> "" -> feedback_text ui <> "" ->
     feedback_csv w' =
     Some (match feedback_csv w with
           | Some old => old ++ record
           | None => csv_row env feedback_header ++ record
           end))
  /\
  (submit_clicked ui = true -> name ui <> "" -> feedback_text ui <> "" ->
     forall held, feedback_csv w = Some (csv_text env held) ->
       feedback_csv w' =
       Some (csv_text env (held ++ [[now w; name ui; feedback_text ui]])))
  /\
  (submit_clicked ui = true -> name ui = "" \/ feedback_text ui = "" -> w' = w)
  /\
  (submit_clicked ui = false -> w' = w)
  /\
  (forall text, feedback_csv w' = Some text ->
     exists before,
       feedback (snd (script env ui w))
       = (before ++ [Subheader "📢 Visitor Feedback";
                     shown (read_csv env text)])%list)
  /\
  (feedback_csv w' = None ->
     feedback (snd (script env ui w)) = [Header "📝 Feedback & Suggestions"]).
Proof.
  cbv zeta. rewrite script_world, script_feedback.
  split; [ | split; [ | split; [ | split; [ | split ] ] ] ].
  - intros Hclick Hname Htext. unfold submit_feedback. rewrite Hclick.
    apply truthy_true in Hname. apply truthy_true in Htext.
    rewrite Hname, Htext. reflexivity.
  - intros Hclick Hname Htext held Hheld. unfold submit_feedback.
    rewrite Hclick.
    apply truthy_true in Hname. apply truthy_true in Htext.
    rewrite Hname, Htext. cbn [andb fst feedback_csv]. rewrite Hheld.
    cbn [to_csv]. rewrite csv_text_app, csv_text_one. reflexivity.
  - intros Hclick Hempty. unfold submit_feedback. rewrite Hclick.
    destruct Hempty as [Hempty | Hempty];
      apply truthy_false in Hempty; rewrite Hempty.
    + reflexivity.
    + rewrite andb_false_r. reflexivity.
  - intros Hclick. unfold submit_feedback. rewrite Hclick. reflexivity.
  - intros text Hfile.
    exists (Header "📝 Feedback & Suggestions" :: snd (submit_feedback env ui w)).
    unfold show_feedback. rewrite Hfile. reflexivity.
  - intros Hfile. rewrite submit_feedback_thanks.
    unfold show_feedback. rewrite Hfile.
    rewrite submit_feedback_file in Hfile.
    destruct (accepted ui); [ discriminate Hfile | reflexivity ].
Qed.
End FeedbackProperties.

(** ** Runs on the reference environment *)

Lemma default_run_Ok :
  exists st : Locals (C := unit), run ref_env default_inputs = Ok st.
Proof. eexists. vm_compute. reflexivity. Qed.

(** What the page shows for the default inputs. *)
Example default_design_section :
  map (fun r => (screen_label r, screen_value r))
      match run (C := unit) ref_env default_inputs with
      | Ok st => screen_rows st
      | Raise _ => []
      end
  = [ ("Heat Duty", "130.94"); ("Cooling Water Flow", "6.27");
      ("Overall U", "370.2"); ("Required Area", "21.01");
      ("Total Tubes", "48"); ("Shell Diameter", "0.24");
      ("Tube Velocity", "8.84") ].
Proof. vm_compute. reflexivity. Qed.

(** *** Where a claim fails *)

(** C1, counterexample.  With both terminal temperature differences equal
    to 20 K (deltaT1 == deltaT2) the run does not end in the error branch:
    the LMTD is NaN, so is the required area, and the page shows it. *)
Lemma lmtd_equal_ends_returns_nan :
  exists st : Locals (C := unit),
    run ref_env equal_ends_inputs = Ok st /\
    deltaT1 st = 20 /\ deltaT2 st = 20 /\
    is_nan (LMTD st) = true /\
    nth_error (run_design ref_env equal_ends_inputs) 4
    = Some (Write "Required Area: **nan m²**").
Proof.
  eexists. split; [ vm_compute; reflexivity | ].
  repeat split; vm_compute; reflexivity.
Qed.

(** C3, counterexample.  A successful run with positive mass flow, density,
    target velocity and tube diameter whose achieved velocity,
    1.0000000000000002 m/s, is above the target of 1 m/s: the raw tube
    requirement rounds to exactly 17. *)
Lemma velocity_exceeds_target :
  exists st : Locals (C := unit),
    run ref_env rounding_inputs = Ok st /\
    (0 <? m_dot_h st) = true /\
    (0 <? rho_h st) = true /\
    (0 <? velocity_target rounding_inputs) = true /\
    (0 <? D_i rounding_inputs) = true /\
    N_per_pass st = 17%Z /\
    velocity st = 1.0000000000000002 /\
    (velocity st <=? velocity_target rounding_inputs) = false.
Proof.
  eexists. split; [ vm_compute; reflexivity | ].
  repeat split; vm_compute; reflexivity.
Qed.

(** C4, counterexample.  A successful run through the auto-water branch
    (the defaults with the cooling water leaving at 1e308 degrees) whose
    heat duty is finite and positive while the divisor
    Cp_water * (T_cold_out - T_cold_in) has overflowed to infinity: the
    cooling water flow is 0, the page reports 0.00 kg/s, and the product
    m_dot_cold * Cp_water * (T_cold_out - T_cold_in), in either grouping,
    is not the heat duty Q.  Only the sign of Q and the overflow of the
    divisor enter, not the digits of the property values. *)
Lemma balance_lost_to_overflow :
  exists (st : Locals (C := unit)) (Cp_w : float),
    run ref_env overflow_inputs = Ok st /\
    auto_water overflow_inputs = true /\
    Cp_water st = Some Cp_w /\
    finite_float (Q_duty st) = true /\
    (0 <? Q_duty st) = true /\
    Cp_w * (T_cold_out st - T_cold_in st) = infinity /\
    m_dot_cold st = 0 /\
    (m_dot_cold st * Cp_w * (T_cold_out st - T_cold_in st) =? Q_duty st) = false /\
    (m_dot_cold st * (Cp_w * (T_cold_out st - T_cold_in st)) =? Q_duty st) = false /\
    nth_error (run_design ref_env overflow_inputs) 2
    = Some (Write "Cooling Water Flow: **0.00 kg/s**").
Proof.
  eexists. eexists. split; [ vm_compute; reflexivity | ].
  split; [ reflexivity | ].
  split; [ vm_compute; reflexivity | ].
  repeat split; vm_compute; reflexivity.
Qed.


(** An accepted press on a file whose last line has no line terminator:
    the record continues that line. *)
Example append_continues_last_line :
  feedback_csv (fst (script (C := unit) ref_env signed_click unterminated_world))
  = Some ("Timestamp,Name,Feedback" ++ LF ++
          "2024-05-01 09:30:00.000000,Asha,Useful tool" ++
          "2024-05-02 17:45:10.250000,Asha,Useful tool" ++ LF).
Proof. reflexivity. Qed.

(** C8, counterexample.  A press of "Submit Feedback" with the name left
    empty appends nothing: feedback.csv, absent before, is absent after. *)
Lemma submit_without_name_writes_nothing :
  submit_clicked blank_name_click = true /\
  feedback_csv (fst (script (C := unit) ref_env blank_name_click fresh_world))
  = None.
Proof. split; reflexivity. Qed.

(** C10, counterexample.  No hydrogen flow, a positive density, a positive
    target velocity and a positive tube area, and no error: with tubes of
    1e154 m the tube area is infinite, the tube count is 0, the velocity
    line divides by NaN, not by zero, and the run completes; the page
    reports 0 tubes and a velocity of nan.  Only the sign and the
    finiteness of the density enter, not its digits. *)
Lemma zero_flow_without_error :
  exists st : Locals (C := unit),
    run ref_env wide_tube_inputs = Ok st /\
    flow_hot_nm3_hr wide_tube_inputs = 0 /\
    (0 <? rho_h st) = true /\
    (0 <? velocity_target wide_tube_inputs) = true /\
    (0 <? A_single st) = true /\
    N_per_pass st = 0%Z /\
    is_nan (velocity st) = true /\
    nth_error (run_design ref_env wide_tube_inputs) 5
    = Some (Write "Total Tubes: **0**") /\
    nth_error (run_design ref_env wide_tube_inputs) 7
    = Some (Write "Tube Velocity: **nan m/s**").
Proof.
  eexists. split; [ vm_compute; reflexivity | ].
  repeat split; vm_compute; reflexivity.
Qed.

(** *** A reversed duty *)

(** C9.  There are inputs with the hydrogen outlet hotter than the inlet
    (in at 40, out at 80, water from 20 to 30 degrees) on which the run
    completes without any error and returns a strictly negative heat duty
    and a strictly negative required area, which the page displays. *)
Theorem reversed_duty_is_not_an_error :
  exists (i : ProcessInputs) (st : Locals (C := unit)) (area : float),
    T_hot_in_C i = 40 /\ T_hot_out_C i = 80 /\
    T_cold_in_C i = 20 /\ T_cold_out_C i = 30 /\
    run ref_env i = Ok st /\
    (Q_duty st <? 0) = true /\
    A_required st = PyFloat area /\
    (area <? 0) = true /\
    nth_error (run_design ref_env i) 1 = Some (Write "Heat Duty: **-130.94 kW**") /\
    nth_error (run_design ref_env i) 4 = Some (Write "Required Area: **-12.68 m²**").
Proof.
  exists reversed_inputs. eexists. eexists.
  do 4 (split; [ reflexivity | ]).
  split; [ vm_compute; reflexivity | ].
  split; [ vm_compute; reflexivity | ].
  split; [ vm_compute; reflexivity | ].
  repeat split; vm_compute; reflexivity.
Qed.

(** *** The theorems at concrete inputs *)

(** C1, witness.  With the hydrogen outlet at the cooling-water inlet
    temperature, deltaT2 is zero and the run raises. *)
Lemma lmtd_fails_iff_deltaT2_zero_witness :
  raises (run (C := unit) ref_env pinch_inputs) /\
  lmtd ref_env 40 5 = Ok ((40 - 5) / np_log ref_env (40 / 5)).
Proof.
  split.
  - destruct (lmtd_fails_iff_deltaT2_zero (C := unit) ref_env pinch_inputs)
      as [Hzero _].
    destruct (Hzero eq_refl) as (_ & Hraises & _). exact Hraises.
  - destruct (lmtd_fails_iff_deltaT2_zero (C := unit) ref_env default_inputs)
      as [_ Hnonzero].
    exact (Hnonzero eq_refl).
Defined.

(** C2, witness.  The default inputs need 48 tubes per pass. *)
Lemma tube_count_is_ceiling_witness :
  exists st : Locals (C := unit),
    run ref_env default_inputs = Ok st /\
    int_ceil (m_dot_h st / (rho_h st * velocity_target default_inputs * A_single st))
    = Ok (N_per_pass st) /\
    N_total st = (N_per_pass st * 1)%Z.
Proof.
  destruct default_run_Ok as [st Hrun]. exists st.
  split; [ exact Hrun | ].
  destruct (tube_count_is_ceiling ref_env default_inputs st Hrun)
    as (_ & _ & Hceil & _ & Htotal).
  split; [ exact Hceil | exact Htotal ].
Defined.

(** C3, witness.  In exact arithmetic, a mass flow of 0.227 kg/s at a
    density of 1.0889 kg/m3, a target of 9 m/s and a tube area of
    0.00049 m2. *)
Lemma velocity_within_target_exact_witness :
  exists N v,
    tubes_per_pass (227 # 1000)%Q (10889 # 10000)%Q 9%Q (49 # 100000)%Q = Ok N /\
    (1 <= N)%Z /\
    ((227 # 1000) / ((10889 # 10000) * 9 * (49 # 100000)) <= inject_Z N)%Q /\
    tube_velocity (227 # 1000)%Q (10889 # 10000)%Q N (49 # 100000)%Q = Ok v /\
    (v <= 9)%Q.
Proof.
  apply (proj2 (velocity_within_target_exact (C := unit))); reflexivity.
Defined.

(** C4, witness.  In exact arithmetic, 130940 W taken up by water of
    4178 J/kg/K warming from 25 to 40 degrees. *)
Lemma water_balance_exact_witness :
  exists flow,
    cooling_water_flow 130940%Q 4178%Q 40%Q 25%Q = Ok flow /\
    (flow * 4178 * (40 - 25) == 130940)%Q.
Proof.
  apply (proj1 (proj2 (water_balance_exact (C := unit)))).
  intros Hz. vm_compute in Hz. discriminate Hz.
Defined.

(** C5, witness.  The default inputs have one pass, so F = 1. *)
Lemma correction_factor_by_passes_witness :
  exists st : Locals (C := unit),
    run ref_env default_inputs = Ok st /\ F st = 1.
Proof.
  destruct default_run_Ok as [st Hrun]. exists st.
  split; [ exact Hrun | ].
  apply (correction_factor_by_passes ref_env default_inputs st Hrun).
  reflexivity.
Defined.

(** C6, witness.  The design section for the default inputs is the same
    before any feedback exists and later, with a feedback file on disk. *)
Lemma sizing_deterministic_witness :
  size (C := unit) ref_env (inputs design_click)
  = size ref_env (inputs design_click_later) /\
  design (snd (script (C := unit) ref_env design_click fresh_world))
  = design (snd (script ref_env design_click_later used_world)).
Proof.
  apply (sizing_deterministic ref_env design_click design_click_later);
    reflexivity.
Defined.


(** C8, witness.  The first signed feedback creates the file with the
    header line and the line of the new record. *)
Lemma feedback_log_witness :
  feedback_csv (fst (script (C := unit) ref_env signed_click fresh_world))
  = Some ("Timestamp,Name,Feedback" ++ LF ++
          "2024-05-01 09:30:00.000000,Asha,Useful tool" ++ LF).
Proof.
  apply (proj1 (feedback_log (C := unit) ref_env signed_click fresh_world)).
  - reflexivity.
  - discriminate.
  - discriminate.
Defined.

(** C10, witness.  The default inputs with the hydrogen flow set to 0. *)
Lemma zero_flow_is_an_error_witness :
  exists e,
    run (C := unit) ref_env zero_flow_inputs = Raise e /\
    run_design ref_env zero_flow_inputs = [Error "Calculation Error"; WriteExn e].
Proof.
  eapply (zero_flow_is_an_error (C := unit) ref_env zero_flow_inputs).
  - reflexivity.
  - vm_compute. reflexivity.
  - reflexivity.
  - reflexivity.
  - reflexivity.
  - vm_compute. reflexivity.
  - reflexivity.
  - reflexivity.
Defined.

(** * Further properties of the handler and the feedback log *)

(** ** Zeros, infinities and NaN *)

Lemma zero_or_nan_mul_l (x y : float) : zero_or_nan x -> zero_or_nan (x * y).
Proof.
  unfold zero_or_nan. rewrite FloatAxioms.mul_spec.
  intros [[s Hx] | Hx]; rewrite Hx.
  - destruct (Prim2SF y); simpl; eauto.
  - right. reflexivity.
Qed.

Lemma zero_or_nan_mul_r (x y : float) : zero_or_nan y -> zero_or_nan (x * y).
Proof.
  unfold zero_or_nan. rewrite FloatAxioms.mul_spec.
  intros [[s Hy] | Hy]; rewrite Hy.
  - destruct (Prim2SF x); simpl; eauto.
  - right. destruct (Prim2SF x); reflexivity.
Qed.

Lemma zero_or_nan_div_l (x y : float) : zero_or_nan x -> zero_or_nan (x / y).
Proof.
  unfold zero_or_nan. rewrite FloatAxioms.div_spec.
  intros [[s Hx] | Hx]; rewrite Hx.
  - destruct (Prim2SF y); simpl; eauto.
  - right. reflexivity.
Qed.

Lemma shl_align_same (m : positive) (e : Z) : shl_align m e e = (m, e).
Proof. unfold shl_align. rewrite Z.sub_diag. reflexivity. Qed.

(** [x - x] is a zero, or NaN when [x] is not finite. *)
Lemma zero_or_nan_sub_self (x : float) : zero_or_nan (x - x).
Proof.
  unfold zero_or_nan. rewrite FloatAxioms.sub_spec.
  destruct (Prim2SF x) as [s | s | | s m e]; unfold SF64sub, SFsub.
  - left. destruct s; eauto.
  - right. destruct s; reflexivity.
  - right. reflexivity.
  - left. rewrite Z.min_id, shl_align_same. cbn [fst].
    rewrite Z.sub_diag. eexists. reflexivity.
Qed.

Lemma sub_self_finite (x : float) :
  finite_float x = true -> exists s, Prim2SF (x - x) = S754_zero s.
Proof.
  unfold finite_float. intros Hfin.
  destruct (zero_or_nan_sub_self x) as [Hz | Hnan]; [ exact Hz | ].
  rewrite FloatAxioms.sub_spec in Hnan.
  destruct (Prim2SF x) as [s | s | | s m e]; try discriminate Hfin.
  - destruct s; discriminate Hnan.
  - unfold SF64sub, SFsub in Hnan.
    rewrite Z.min_id, shl_align_same in Hnan. cbn [fst] in Hnan.
    rewrite Z.sub_diag in Hnan. discriminate Hnan.
Qed.

(** Dividing by a zero or by NaN never gives a finite value. *)
Lemma div_by_zero_or_nan (x d : float) :
  zero_or_nan d -> finite_float (x / d) = false.
Proof.
  unfold zero_or_nan, finite_float. rewrite FloatAxioms.div_spec.
  intros [[s Hd] | Hd]; rewrite Hd; destruct (Prim2SF x); reflexivity.
Qed.

Lemma nan_eqb_zero (x : float) : Prim2SF x = S754_nan -> (x =? 0) = false.
Proof. intros Hx. rewrite FloatAxioms.eqb_spec, Hx. reflexivity. Qed.

Lemma div_nan_r (x d : float) :
  Prim2SF d = S754_nan -> Prim2SF (x / d) = S754_nan.
Proof.
  intros Hd. rewrite FloatAxioms.div_spec, Hd. destruct (Prim2SF x); reflexivity.
Qed.

Lemma eqb_zero_zero_or_nan (x : float) : (x =? 0) = true -> zero_or_nan x.
Proof. intros Hx. left. apply eqb_zero_inv. exact Hx. Qed.

Lemma finite_mul_zero_any (x z : float) (s : bool) :
  finite_float x = true -> Prim2SF z = S754_zero s ->
  exists s', Prim2SF (x * z) = S754_zero s'.
Proof.
  unfold finite_float. intros Hx Hz. rewrite FloatAxioms.mul_spec, Hz.
  destruct (Prim2SF x); try discriminate Hx; simpl; eauto.
Qed.

Lemma not_finite_inf_or_nan (x : float) : finite_float x = false -> inf_or_nan x.
Proof.
  unfold finite_float, inf_or_nan.
  destruct (Prim2SF x); intros Hx; try discriminate Hx; eauto.
Qed.

Lemma inf_or_nan_mul_l (x y : float) : inf_or_nan x -> inf_or_nan (x * y).
Proof.
  unfold inf_or_nan. rewrite FloatAxioms.mul_spec.
  intros [[s Hx] | Hx]; rewrite Hx.
  - destruct (Prim2SF y); simpl; eauto.
  - right. reflexivity.
Qed.

Lemma inf_or_nan_div (x y : float) :
  inf_or_nan x -> inf_or_nan y -> Prim2SF (x / y) = S754_nan.
Proof.
  unfold inf_or_nan. rewrite FloatAxioms.div_spec.
  intros [[s Hx] | Hx] [[s' Hy] | Hy]; rewrite Hx, Hy; reflexivity.
Qed.

Lemma inf_or_nan_eqb_zero (x : float) : inf_or_nan x -> (x =? 0) = false.
Proof.
  intros [[s Hx] | Hx]; rewrite FloatAxioms.eqb_spec, Hx;
    [ destruct s | ]; reflexivity.
Qed.

Lemma zero_is_not_nan (x : float) (s : bool) :
  Prim2SF x = S754_zero s -> is_nan x = false.
Proof.
  intros Hx. unfold is_nan. rewrite FloatAxioms.eqb_spec, Hx. reflexivity.
Qed.

Lemma zero_is_not_infinity (x : float) (s : bool) :
  Prim2SF x = S754_zero s -> is_infinity x = false.
Proof.
  intros Hx. unfold is_infinity.
  rewrite FloatAxioms.eqb_spec, FloatAxioms.abs_spec, Hx. reflexivity.
Qed.

Lemma is_infinity_inv (x : float) :
  is_infinity x = true -> exists s, Prim2SF x = S754_infinity s.
Proof.
  unfold is_infinity.
  rewrite FloatAxioms.eqb_spec, FloatAxioms.abs_spec, Prim2SF_infinity.
  destruct (Prim2SF x) as [s | s | | s m e]; simpl; intros Hx;
    try discriminate Hx.
  exists s. reflexivity.
Qed.

(** A finite value divided by an infinity is a zero. *)
Lemma finite_div_infinity (x d : float) (sd : bool) :
  finite_float x = true -> Prim2SF d = S754_infinity sd ->
  exists s, Prim2SF (x / d) = S754_zero s.
Proof.
  unfold finite_float. intros Hx Hd. rewrite FloatAxioms.div_spec, Hd.
  destruct (Prim2SF x); try discriminate Hx; simpl; eauto.
Qed.

(** A zero or NaN compares equal to no value other than a zero. *)
Lemma zero_or_nan_eqb (p q : float) :
  zero_or_nan p -> (q =? 0) = false -> (p =? q) = false.
Proof.
  unfold zero_or_nan.
  rewrite !FloatAxioms.eqb_spec, Prim2SF_zero. unfold SFeqb.
  intros [[s Hp] | Hp]; rewrite Hp;
    destruct (Prim2SF q) as [sq | sq | | sq mq eq]; simpl; intros Hq;
    try discriminate Hq; try reflexivity; destruct sq; reflexivity.
Qed.

Lemma infinity_mul_positive (x A : float) :
  (0 <? x) = true -> Prim2SF A = S754_infinity false ->
  Prim2SF (x * A) = S754_infinity false.
Proof.
  rewrite FloatAxioms.ltb_spec, Prim2SF_zero, FloatAxioms.mul_spec.
  unfold SFltb. intros Hx HA. rewrite HA.
  destruct (Prim2SF x) as [s | s | | s m e]; simpl in *;
    try discriminate Hx; destruct s; try discriminate Hx; reflexivity.
Qed.

(** ** Squares and powers *)

(** The square of a zero is computed without the C library. *)
Lemma float_pow_int_zero (pw : float -> float -> float) (x : float) :
  (x =? 0) = true -> float_pow_int pw x 2 = Ok 0.
Proof.
  intros Hx. destruct (eqb_zero_inv x Hx) as [s Hs].
  unfold float_pow_int, float_pow_real.
  change (2 =? 0) with false. change (is_nan 2) with false.
  change (is_infinity 2) with false. change (2 <? 0) with false.
  change (is_odd_integer 2) with false.
  rewrite (zero_is_not_nan x s Hs), (zero_is_not_infinity x s Hs), Hx.
  reflexivity.
Qed.

(** A square fails by overflow only. *)
Lemma float_pow_int_square_error (pw : float -> float -> float) (x : float)
  (e : exn) :
  float_pow_int pw x 2 = Raise e ->
  e = OverflowError /\ is_infinity (pw (abs x) 2) = true.
Proof.
  unfold float_pow_int.
  destruct (float_pow_real pw x 2) as [r | ] eqn:Hreal.
  - revert Hreal. unfold float_pow_real.
    change (2 =? 0) with false. change (is_nan 2) with false.
    change (is_infinity 2) with false. change (2 <? 0) with false.
    change (is_integer 2) with true. change (is_odd_integer 2) with false.
    rewrite andb_false_r. cbv iota.
    destruct (is_nan x); [ intros Hr; injection Hr as <-; discriminate | ].
    destruct (is_infinity x); [ intros Hr; injection Hr as <-; discriminate | ].
    destruct (x =? 0); [ intros Hr; injection Hr as <-; discriminate | ].
    destruct (abs x =? 1); [ intros Hr; injection Hr as <-; discriminate | ].
    destruct (is_infinity (pw (abs x) 2)) eqn:Hinf;
      intros Hr; injection Hr as <-; intros He.
    + injection He as <-. split; reflexivity.
    + discriminate He.
  - contradiction (float_pow_real_integer pw x 2 eq_refl Hreal).
Qed.

Lemma float_pow_real_nonnegative (pw : float -> float -> float) (iv iw : float) :
  (iv <? 0) = false -> float_pow_real pw iv iw <> None.
Proof.
  intros Hiv. unfold float_pow_real. rewrite Hiv. cbn [andb].
  repeat match goal with
         | |- context [if ?b then _ else _] => destruct b
         end; discriminate.
Qed.

(** ** Lines that fail *)

(** The tube-count line with a divisor that is zero or NaN. *)
Lemma tubes_per_pass_bad_divisor (m rho vt A : float) :
  zero_or_nan (rho * vt * A) ->
  tubes_per_pass m rho vt A = Raise ZeroDivisionError \/
  tubes_per_pass m rho vt A = Raise ValueError.
Proof.
  intros [[s Hz] | Hnan]; unfold tubes_per_pass;
    cbn [num_div num_mul num_ceil py_float]; unfold truediv.
  - left. rewrite (zero_eqb _ _ Hz). reflexivity.
  - right. rewrite (nan_eqb_zero _ Hnan). cbn [bind].
    apply int_ceil_nan. apply div_nan_r. exact Hnan.
Qed.

(** With a density that is not finite the raw requirement is NaN. *)
Lemma tubes_per_pass_density_not_finite (rho f vt A : float) :
  finite_float rho = false ->
  tubes_per_pass (rho * f) rho vt A = Raise ValueError.
Proof.
  intros Hrho. apply not_finite_inf_or_nan in Hrho.
  unfold tubes_per_pass. cbn [num_div num_mul num_ceil py_float]. unfold truediv.
  assert (Hden : inf_or_nan (rho * vt * A))
    by (do 2 apply inf_or_nan_mul_l; exact Hrho).
  rewrite (inf_or_nan_eqb_zero _ Hden). cbn [bind].
  apply int_ceil_nan. apply inf_or_nan_div; [ | exact Hden ].
  apply inf_or_nan_mul_l. exact Hrho.
Qed.

Lemma lmtd_Ok (env : Env) (d1 d2 L : float) :
  lmtd env d1 d2 = Ok L ->
  (d2 =? 0) = false /\ L = (d1 - d2) / np_log env (d1 / d2).
Proof.
  unfold lmtd, truediv. destruct (d2 =? 0); cbn [bind]; intros HL.
  - discriminate HL.
  - injection HL as <-. split; reflexivity.
Qed.

(** X6.  The tube-area line, A_single = pi * D_i**2 / 4, can fail in one
    way only: with OverflowError, when the C library's square of |D_i|
    overflows.  It never raises ZeroDivisionError, ValueError or
    TypeError. *)
Theorem tube_area_fails_by_overflow_only (env : Env) (D : float) (e : exn) :
  single_tube_area env D = Raise e ->
  e = OverflowError /\ is_infinity (libm_pow env (abs D) 2) = true.
Proof.
  unfold single_tube_area.
  destruct (float_pow_int (libm_pow env) D 2) as [sq | e'] eqn:Hsq; cbn [bind].
  - discriminate.
  - intros He. injection He as <-.
    apply (float_pow_int_square_error _ _ _ Hsq).
Qed.

Lemma single_tube_area_zero (env : Env) (D : float) :
  (D =? 0) = true -> single_tube_area env D = Ok 0.
Proof.
  intros HD. unfold single_tube_area.
  rewrite (float_pow_int_zero _ _ HD). reflexivity.
Qed.

Section FailingLines.
Context {C : Type} `{ComplexOps C}.

(** X1.  A target velocity of zero, or a tube inner diameter of zero,
    always ends in the error branch: the divisor of the tube-count line is
    then zero or NaN, so that line raises ZeroDivisionError or ValueError
    (unless an earlier line has raised), whatever the other inputs and the
    property values are. *)
Theorem zero_design_value_is_an_error (env : Env) (i : ProcessInputs) :
  (velocity_target i =? 0) = true \/ (D_i i =? 0) = true ->
  (forall m rho A,
     single_tube_area env (D_i i) = Ok A ->
     tubes_per_pass m rho (velocity_target i) A = Raise ZeroDivisionError \/
     tubes_per_pass m rho (velocity_target i) A = Raise ValueError) /\
  raises (run env i) /\
  exists e, run_design env i = [Error "Calculation Error"; WriteExn e].
Proof.
  intros Hzero.
  assert (Hbad : forall rho A, single_tube_area env (D_i i) = Ok A ->
                               zero_or_nan (rho * velocity_target i * A)).
  { intros rho A HA. destruct Hzero as [Hvt | HD].
    - apply zero_or_nan_mul_l, zero_or_nan_mul_r, eqb_zero_zero_or_nan. exact Hvt.
    - rewrite (single_tube_area_zero env _ HD) in HA. injection HA as <-.
      apply zero_or_nan_mul_r. left. exists false. reflexivity. }
  assert (Hraise : raises (run env i)).
  { unfold run. cbv zeta. do 6 run_step.
    match goal with
    | |- raises (bind ?c _) => destruct c as [A | e] eqn:EA
    end; [ cbn [bind] | apply raises_Raise ].
    match goal with
    | |- raises (bind (tubes_per_pass ?m ?rho ?vt ?A) _) =>
        destruct (tubes_per_pass_bad_divisor m rho vt A (Hbad rho A eq_refl))
          as [-> | ->]
    end; apply raises_Raise. }
  split; [ | split ].
  - intros m rho A HA. apply tubes_per_pass_bad_divisor. apply Hbad. exact HA.
  - exact Hraise.
  - destruct Hraise as [e He]. exists e. apply run_design_Raise. exact He.
Qed.

(** X2.  When the property provider returns a density that is not finite
    (an infinity or NaN) instead of raising, the run still ends in the
    error branch: the raw tube requirement is NaN and int() raises
    ValueError on it. *)
Theorem density_not_finite_is_an_error (env : Env) (i : ProcessInputs)
  (rho : float) :
  PropsSI env "D" "T" (T_hot_in_C i + 273.15) "P" (P_hot_bar i * 1e5) "Hydrogen"
    = Ok rho ->
  finite_float rho = false ->
  (forall A,
     tubes_per_pass (rho * (flow_hot_nm3_hr i / 3600)) rho (velocity_target i) A
     = Raise ValueError) /\
  raises (run env i) /\
  exists e, run_design env i = [Error "Calculation Error"; WriteExn e].
Proof.
  intros Hrho Hnf.
  assert (Hraise : raises (run env i)).
  { unfold run. cbv zeta. rewrite Hrho. cbn [bind]. do 6 run_step.
    rewrite (tubes_per_pass_density_not_finite _ _ _ _ Hnf). apply raises_Raise. }
  split; [ | split ].
  - intros A. apply tubes_per_pass_density_not_finite. exact Hnf.
  - exact Hraise.
  - destruct Hraise as [e He]. exists e. apply run_design_Raise. exact He.
Qed.

(** X3.  In the auto-water branch, equal cooling-water inlet and outlet
    temperatures end in the error branch: with a finite water specific
    heat the divisor Cp_water * (T_cold_out - T_cold_in) is zero and the
    line raises ZeroDivisionError. *)
Theorem equal_water_temperatures_is_an_error (env : Env) (i : ProcessInputs) :
  auto_water i = true ->
  T_cold_out_C i = T_cold_in_C i ->
  finite_float (T_cold_in_C i + 273.15) = true ->
  (forall Cp_w,
     PropsSI env "C" "T" (T_cold_in_C i + 273.15) "P" (P_cold_bar i * 1e5) "Water"
       = Ok Cp_w ->
     finite_float Cp_w = true) ->
  (forall Q_duty Cp_w,
     finite_float Cp_w = true ->
     cooling_water_flow Q_duty Cp_w (T_cold_out_C i + 273.15)
       (T_cold_in_C i + 273.15)
     = Raise ZeroDivisionError) /\
  raises (run env i) /\
  exists e, run_design env i = [Error "Calculation Error"; WriteExn e].
Proof.
  intros Hauto Heq Hfin HCp.
  assert (Hline : forall Q_duty Cp_w,
             finite_float Cp_w = true ->
             cooling_water_flow Q_duty Cp_w (T_cold_out_C i + 273.15)
               (T_cold_in_C i + 273.15) = Raise ZeroDivisionError).
  { intros Q_duty Cp_w HCp_w. rewrite Heq.
    unfold cooling_water_flow. cbn [num_div num_mul num_sub py_float].
    destruct (sub_self_finite _ Hfin) as [s Hs].
    destruct (finite_mul_zero_any Cp_w _ s HCp_w Hs) as [s' Hz].
    unfold truediv. rewrite (zero_eqb _ _ Hz). reflexivity. }
  assert (Hraise : raises (run env i)).
  { unfold run. cbv zeta. do 5 run_step.
    unfold auto_water in Hauto.
    destruct (m_dot_cold_input i) as [m | ]; [ discriminate Hauto | ].
    match goal with
    | |- raises (bind (bind ?c _) _) => destruct c as [Cp_w | e] eqn:ECp
    end; [ cbn [bind] | apply raises_Raise ].
    rewrite (Hline _ Cp_w (HCp Cp_w eq_refl)). apply raises_Raise. }
  split; [ exact Hline | split; [ exact Hraise | ] ].
  destruct Hraise as [e He]. exists e. apply run_design_Raise. exact He.
Qed.

(** X8.  The exception the page reports is the one of the first hydrogen
    property lookup that fails: when the lookups before it (in the order
    density, specific heat, viscosity, conductivity, Prandtl number)
    succeed and it raises e, the run raises e and the design section is
    the error message followed by e. *)
Theorem first_failed_lookup_is_reported (env : Env) (i : ProcessInputs)
  (before after : list string) (out : string) (e : exn) :
  let lookup o :=
    PropsSI env o "T" (T_hot_in_C i + 273.15) "P" (P_hot_bar i * 1e5) "Hydrogen" in
  ["D"; "C"; "V"; "L"; "PRANDTL"] = (before ++ out :: after)%list ->
  Forall (fun o => exists v, lookup o = Ok v) before ->
  lookup out = Raise e ->
  run env i = Raise e /\
  run_design env i = [Error "Calculation Error"; WriteExn e].
Proof.
  cbv zeta. intros Hsplit Hbefore Hout.
  assert (Hrun : run env i = Raise e).
  { unfold run. cbv zeta.
    repeat match goal with
           | Hb : Forall _ (_ :: _) |- _ =>
               let v := fresh "v" in
               let Hv := fresh "Hv" in
               inversion Hb as [ | ? ? [v Hv] ? ]; subst; clear Hb
           | _ =>
               destruct before as [ | ? before ];
               cbn [app] in Hsplit; injection Hsplit as <- Hsplit
           end.
    all: try (destruct before; discriminate Hsplit).
    all: repeat match goal with
                | Hv : PropsSI _ _ _ _ _ _ _ = Ok _ |- _ =>
                    rewrite Hv; clear Hv; cbn [bind]
                end.
    all: rewrite Hout; reflexivity. }
  split; [ exact Hrun | apply run_design_Raise; exact Hrun ].
Qed.
End FailingLines.

(** ** Runs that succeed *)

Section SuccessfulRuns.
Context {C : Type} `{ComplexOps C}.

Lemma float_pow_nonnegative (pw : float -> float -> float) (iv iw : float)
  (p : pynum C) :
  (iv <? 0) = false -> float_pow pw iv iw = Ok p -> exists x, p = PyFloat x.
Proof.
  intros Hiv. unfold float_pow.
  destruct (float_pow_real pw iv iw) as [r | ] eqn:Hreal.
  - destruct r as [x | e]; cbn; intros Hp; [ | discriminate Hp ].
    injection Hp as <-. exists x. reflexivity.
  - contradiction (float_pow_real_nonnegative pw iv iw Hiv Hreal).
Qed.

(** Lines 147-157 of a successful run. *)
Lemma run_Ok_heat (env : Env) (i : ProcessInputs) (st : Locals) :
  run env i = Ok st ->
  PropsSI env "PRANDTL" "T" (T_hot_in st) "P" (P_hot st) "Hydrogen" = Ok (Pr_h st) /\
  reynolds (rho_h st) (velocity st) (D_i i) (mu_h st) = Ok (Re_h st) /\
  nusselt env (Re_h st) (Pr_h st) = Ok (Nu_h st) /\
  film_coefficient (Nu_h st) (k_h st) (D_i i) = Ok (h_hot st) /\
  overall_U (h_hot st) (t_wall i) = Ok (U st).
Proof.
  unfold run. cbv zeta. intros Hrun. run_inv Hrun.
  injection Hrun as <-. cbn. repeat split; assumption.
Qed.

(** X4.  On every successful run with equal terminal temperature
    differences (deltaT1 == deltaT2) the LMTD is a zero or NaN, and the
    required area it gives with a real U is never a finite number: it is
    an infinity or NaN. *)
Theorem equal_ends_give_no_area (env : Env) (i : ProcessInputs) (st : Locals)
  (u : float) :
  run env i = Ok st ->
  deltaT1 st = deltaT2 st ->
  U st = PyFloat u ->
  zero_or_nan (LMTD st) /\
  exists a, A_required st = PyFloat a /\ finite_float a = false.
Proof.
  intros Hrun Heq HU.
  pose proof (run_Ok_inv env i st Hrun) as Htr.
  pose proof (tr_lmtd _ _ _ Htr) as Hlmtd.
  pose proof (tr_area_required _ _ _ Htr) as Harea.
  apply lmtd_Ok in Hlmtd. destruct Hlmtd as [_ HL].
  assert (HLz : zero_or_nan (LMTD st)).
  { rewrite HL, Heq. apply zero_or_nan_div_l, zero_or_nan_sub_self. }
  split; [ exact HLz | ].
  rewrite HU in Harea. cbn [py_mul np_rdiv] in Harea. injection Harea as Harea.
  eexists. split; [ symmetry; exact Harea | ].
  apply div_by_zero_or_nan, zero_or_nan_mul_r. exact HLz.
Qed.

(** X5.  A successful run that reports a finite tube velocity has a tube
    count that is not zero: neither N_per_pass nor N_total is 0. *)
Theorem finite_velocity_needs_tubes (env : Env) (i : ProcessInputs) (st : Locals) :
  run env i = Ok st ->
  finite_float (velocity st) = true ->
  N_per_pass st <> 0%Z /\ N_total st <> 0%Z.
Proof.
  intros Hrun Hfin.
  pose proof (run_Ok_inv env i st Hrun) as Htr.
  assert (HN : N_per_pass st <> 0%Z).
  { intros HN. pose proof (tr_velocity _ _ _ Htr) as Hvel.
    rewrite HN in Hvel. unfold tube_velocity in Hvel.
    cbn [num_of_int num_div num_mul py_float] in Hvel.
    rewrite float_of_int_0 in Hvel. cbn [bind] in Hvel.
    apply truediv_Ok in Hvel. destruct Hvel as [_ Hv].
    rewrite Hv, div_by_zero_or_nan in Hfin; [ discriminate Hfin | ].
    apply zero_or_nan_mul_l, zero_or_nan_mul_r. left. exists false. reflexivity. }
  split; [ exact HN | ].
  rewrite (tr_total _ _ _ Htr). destruct (passes i); cbn [passes_int]; lia.
Qed.

(** X9.  With the cooling water flow entered by hand the run never looks
    up a water property: two providers that agree on hydrogen (and the
    same log and pow) give the same outcome, the reported cooling water
    flow is the entered value, and no Cp_water is bound. *)
Theorem manual_water_ignores_water_properties (env env' : Env)
  (i : ProcessInputs) :
  auto_water i = false ->
  (forall out T P,
     PropsSI env' out "T" T "P" P "Hydrogen" = PropsSI env out "T" T "P" P "Hydrogen") ->
  np_log env' = np_log env ->
  libm_pow env' = libm_pow env ->
  run env' i = run env i /\
  (forall st, run env i = Ok st ->
     Cp_water st = None /\ m_dot_cold_input i = Some (m_dot_cold st)).
Proof.
  intros Hmanual Hprops Hlog Hpow. split.
  - unfold run, nusselt, single_tube_area, lmtd. cbv zeta.
    rewrite !Hprops, Hlog, Hpow.
    unfold auto_water in Hmanual.
    destruct (m_dot_cold_input i) as [m | ]; [ reflexivity | discriminate Hmanual ].
  - intros st Hrun.
    pose proof (tr_water _ _ _ (run_Ok_inv env i st Hrun)) as Hwater.
    unfold auto_water in Hmanual.
    destruct (m_dot_cold_input i) as [m | ]; [ | discriminate Hmanual ].
    destruct Hwater as [HCp Hm]. rewrite Hm. split; [ exact HCp | reflexivity ].
Qed.

(** X10.  On a successful run whose Reynolds and Prandtl numbers are not
    negative, nothing is complex: Nu_h, h_hot, U and the required area are
    floats, with h_hot = Nu_h * k_h / D_i,
    U = 1 / (1/h_hot + Rf_i + t_wall/k_tube + 1/h_shell + Rf_o) and
    A_required = Q / (U * F * LMTD). *)
Theorem real_results_for_nonnegative_groups (env : Env) (i : ProcessInputs)
  (st : Locals) :
  run env i = Ok st ->
  (Re_h st <? 0) = false ->
  (Pr_h st <? 0) = false ->
  exists nu h u,
    Nu_h st = PyFloat nu /\
    h_hot st = PyFloat h /\
    h = nu * k_h st / D_i i /\
    U st = PyFloat u /\
    u = 1 / (1 / h + Rf_i + t_wall i / k_tube + 1 / h_shell + Rf_o) /\
    A_required st = PyFloat (Q_duty st / (u * F st * LMTD st)).
Proof.
  intros Hrun HRe HPr.
  destruct (run_Ok_heat env i st Hrun) as (_ & _ & HNu & Hh & HU).
  pose proof (tr_area_required _ _ _ (run_Ok_inv env i st Hrun)) as HA.
  unfold nusselt in HNu.
  apply bind_Ok_inv in HNu. destruct HNu as (p1 & Hp1 & HNu).
  apply bind_Ok_inv in HNu. destruct HNu as (p2 & Hp2 & HNu).
  destruct (float_pow_nonnegative _ _ _ _ HRe Hp1) as [x1 ->].
  destruct (float_pow_nonnegative _ _ _ _ HPr Hp2) as [x2 ->].
  cbn [py_mul] in HNu. injection HNu as HNu.
  rewrite <- HNu in Hh. unfold film_coefficient in Hh. cbn [py_mul py_div] in Hh.
  unfold fmap in Hh. apply bind_Ok_inv in Hh. destruct Hh as (h & Hh & Hh').
  injection Hh' as Hh'. apply truediv_Ok in Hh. destruct Hh as [_ Hh].
  rewrite <- Hh' in HU. unfold overall_U in HU.
  apply bind_Ok_inv in HU. destruct HU as (r & Hr & HU).
  cbn [py_div] in Hr. unfold fmap in Hr.
  apply bind_Ok_inv in Hr. destruct Hr as (r' & Hr & Hr').
  injection Hr' as <-. apply truediv_Ok in Hr. destruct Hr as [_ ->].
  cbn [py_add py_div] in HU. unfold fmap in HU.
  apply bind_Ok_inv in HU. destruct HU as (u & Hu & HU).
  injection HU as HU. apply truediv_Ok in Hu. destruct Hu as [_ Hu].
  rewrite <- HU in HA. cbn [py_mul np_rdiv] in HA. injection HA as HA.
  exists (0.023 * x1 * x2), h, u.
  repeat split; try (symmetry; assumption); assumption.
Qed.

(** X11.  Choosing 4 passes instead of 2 changes the total tube count (it
    doubles) and nothing else among heat duty, cooling water flow, overall
    U, required area, tube velocity and tubes per pass: the correction
    factor is 0.85 for both. *)
Theorem two_or_four_passes (env : Env) (i : ProcessInputs) (st2 st4 : Locals) :
  run env (with_passes i Two) = Ok st2 ->
  run env (with_passes i Four) = Ok st4 ->
  Q_duty st4 = Q_duty st2 /\
  m_dot_cold st4 = m_dot_cold st2 /\
  U st4 = U st2 /\
  A_required st4 = A_required st2 /\
  velocity st4 = velocity st2 /\
  N_per_pass st4 = N_per_pass st2 /\
  N_total st4 = (2 * N_total st2)%Z.
Proof.
  unfold run. cbv zeta. cbn [with_passes flow_hot_nm3_hr T_hot_in_C T_hot_out_C
    P_hot_bar T_cold_in_C T_cold_out_C P_cold_bar m_dot_cold_input D_i t_wall
    velocity_target passes].
  change (correction_factor Four) with 0.85.
  change (correction_factor Two) with 0.85.
  change (passes_int Four) with 4%Z. change (passes_int Two) with 2%Z.
  intros H2 H4.
  repeat match type of H2 with
         | bind ?c _ = Ok _ =>
             destruct c eqn:?; cbn [bind] in H2, H4; [ | discriminate H2 ]
         end.
  injection H2 as <-.
  repeat match type of H4 with
         | bind ?c _ = Ok _ =>
             destruct c eqn:?; cbn [bind] in H4; [ | discriminate H4 ]
         end.
  injection H4 as <-.
  cbn [Q_duty m_dot_cold U A_required velocity N_per_pass N_total].
  repeat split; try reflexivity; try congruence. lia.
Qed.

(** X15.  On a successful run through the auto-water branch whose
    divisor Cp_water * (T_cold_out - T_cold_in) has overflowed to an
    infinity while the heat duty is finite, the cooling water flow is a
    zero; and when the heat duty is not zero, the product
    m_dot_cold * Cp_water * (T_cold_out - T_cold_in), in either grouping,
    is not equal to it: the energy balance is lost, for every provider. *)
Theorem overflowing_divisor_gives_no_water (env : Env) (i : ProcessInputs)
  (st : Locals) (Cp_w : float) :
  run env i = Ok st ->
  Cp_water st = Some Cp_w ->
  is_infinity (Cp_w * (T_cold_out st - T_cold_in st)) = true ->
  finite_float (Q_duty st) = true ->
  (m_dot_cold st =? 0) = true /\
  ((Q_duty st =? 0) = false ->
     (m_dot_cold st * Cp_w * (T_cold_out st - T_cold_in st) =? Q_duty st) = false /\
     (m_dot_cold st * (Cp_w * (T_cold_out st - T_cold_in st)) =? Q_duty st) = false).
Proof.
  intros Hrun HCp Hinf Hfin.
  pose proof (tr_water _ _ _ (run_Ok_inv env i st Hrun)) as Hwater.
  destruct (m_dot_cold_input i) as [m | ].
  { destruct Hwater as [Hnone _]. rewrite Hnone in HCp. discriminate HCp. }
  destruct Hwater as (Cp_w' & HCp' & _ & Hflow).
  rewrite HCp in HCp'. injection HCp' as <-.
  unfold cooling_water_flow in Hflow.
  cbn [num_div num_mul num_sub py_float] in Hflow.
  apply truediv_Ok in Hflow. destruct Hflow as [_ Hm].
  destruct (is_infinity_inv _ Hinf) as [sd Hd].
  destruct (finite_div_infinity _ _ sd Hfin Hd) as [s Hz].
  rewrite <- Hm in Hz.
  assert (Hzn : zero_or_nan (m_dot_cold st)) by (left; exists s; exact Hz).
  split; [ apply (zero_eqb _ s); exact Hz | ].
  intros HQ. split; apply zero_or_nan_eqb; try exact HQ.
  - apply zero_or_nan_mul_l, zero_or_nan_mul_l. exact Hzn.
  - apply zero_or_nan_mul_l. exact Hzn.
Qed.

(** X16.  With a hydrogen flow of zero, a positive and finite density, a
    product rho_h * velocity_target that is positive, and a tube area that
    has overflowed to infinity, the tube design raises nothing: the
    tube-count line returns 0 and the velocity line divides by
    rho_h * 0 * inf, which is NaN and not zero, and returns NaN.  Every run
    that completes on such inputs reports 0 tubes and a velocity of
    NaN. *)
Theorem zero_flow_through_unbounded_area (env : Env) (i : ProcessInputs)
  (rho A : float) :
  (flow_hot_nm3_hr i =? 0) = true ->
  PropsSI env "D" "T" (T_hot_in_C i + 273.15) "P" (P_hot_bar i * 1e5) "Hydrogen"
    = Ok rho ->
  (0 <? rho) = true -> (rho <? infinity) = true ->
  (0 <? rho * velocity_target i) = true ->
  single_tube_area env (D_i i) = Ok A ->
  A = infinity ->
  let m_dot_h := rho * (flow_hot_nm3_hr i / 3600) in
  tubes_per_pass m_dot_h rho (velocity_target i) A = Ok 0%Z /\
  (exists v, tube_velocity m_dot_h rho 0 A = Ok v /\ is_nan v = true) /\
  (forall st, run env i = Ok st ->
     N_per_pass st = 0%Z /\ N_total st = 0%Z /\ is_nan (velocity st) = true).
Proof.
  intros Hflow Hrho Hrho_pos Hrho_fin Hrv HA -> . cbv zeta.
  destruct (eqb_zero_inv _ Hflow) as [s Hs].
  destruct (positive_finite_inv _ Hrho_pos Hrho_fin) as (mr & er & Hr).
  assert (Hm : Prim2SF (rho * (flow_hot_nm3_hr i / 3600)) = S754_zero s).
  { apply (finite_mul_zero _ _ mr er); [ exact Hr | ].
    apply zero_div_3600. exact Hs. }
  assert (Hd : Prim2SF (rho * velocity_target i * infinity)
               = S754_infinity false).
  { apply infinity_mul_positive; [ exact Hrv | reflexivity ]. }
  assert (Htubes : tubes_per_pass (rho * (flow_hot_nm3_hr i / 3600)) rho
                     (velocity_target i) infinity = Ok 0%Z).
  { apply (tubes_per_pass_zero_flow_positive _ _ _ _ s); [ exact Hm | ].
    rewrite FloatAxioms.ltb_spec, Hd. reflexivity. }
  assert (Hvel : forall m,
             tube_velocity m rho 0 infinity = Ok (m / (rho * 0 * infinity)) /\
             is_nan (m / (rho * 0 * infinity)) = true).
  { intros m. unfold tube_velocity. cbn [num_of_int num_div num_mul py_float].
    rewrite float_of_int_0. cbn [bind]. unfold truediv.
    assert (Hn : Prim2SF (rho * 0 * infinity) = S754_nan).
    { rewrite FloatAxioms.mul_spec.
      rewrite (finite_mul_zero _ _ mr er false Hr Prim2SF_zero). reflexivity. }
    rewrite (nan_eqb_zero _ Hn). split; [ reflexivity | ].
    unfold is_nan. rewrite FloatAxioms.eqb_spec, (div_nan_r _ _ Hn).
    reflexivity. }
  split; [ exact Htubes | ].
  split; [ eexists; apply Hvel | ].
  intros st Hrun.
  pose proof (run_Ok_inv env i st Hrun) as Htr.
  pose proof (tr_tubes _ _ _ Htr) as Ht.
  pose proof (tr_velocity _ _ _ Htr) as Hv.
  pose proof (tr_area _ _ _ Htr) as Ha.
  pose proof (tr_rho _ _ _ Htr) as Hrh.
  rewrite (tr_T_hot_in _ _ _ Htr), (tr_P_hot _ _ _ Htr), Hrho in Hrh.
  injection Hrh as Hrh.
  rewrite HA in Ha. injection Ha as Ha.
  rewrite (tr_m_dot_h _ _ _ Htr), (tr_flow _ _ _ Htr), <- Hrh, <- Ha in Ht, Hv.
  rewrite Htubes in Ht. injection Ht as Ht.
  rewrite <- Ht in Hv. rewrite (proj1 (Hvel _)) in Hv. injection Hv as Hv.
  split; [ symmetry; exact Ht | ].
  split; [ rewrite (tr_total _ _ _ Htr), <- Ht; reflexivity | ].
  rewrite <- Hv. apply Hvel.
Qed.
End SuccessfulRuns.

(** X7.  In exact arithmetic the tube count is the least one that keeps
    the velocity at or below the target: for positive mass flow, density,
    target velocity and tube area, any smaller count N' >= 1 gives a
    velocity strictly above the target. *)
Theorem exact_tube_count_is_minimal (m rho vt A : QArith_base.Q) (N N' : Z) :
  (0 < m)%Q -> (0 < rho)%Q -> (0 < vt)%Q -> (0 < A)%Q ->
  tubes_per_pass m rho vt A = Ok N ->
  (1 <= N' < N)%Z ->
  exists v', tube_velocity m rho N' A = Ok v' /\ (vt < v')%Q.
Proof.
  intros Hm Hrho Hvt HA HN [Hlo Hhi].
  assert (Hden : (0 < rho * vt * A)%Q).
  { apply Qmult_lt_0_compat; [ apply Qmult_lt_0_compat | ]; assumption. }
  unfold tubes_per_pass in HN. cbn [num_mul num_ceil py_exact] in HN.
  rewrite exact_div_Ok in HN by lra. cbn [bind] in HN. injection HN as HN.
  set (raw := (m / (rho * vt * A))%Q) in *.
  pose proof (Qceiling_lt raw) as Hlt. rewrite HN in Hlt.
  assert (HN'raw : (inject_Z N' < raw)%Q).
  { apply Qle_lt_trans with (inject_Z (N - 1)); [ | exact Hlt ].
    rewrite <- Zle_Qle. lia. }
  assert (HN'pos : (0 < inject_Z N')%Q).
  { change 0%Q with (inject_Z 0). rewrite <- Zlt_Qlt. lia. }
  assert (Hden' : (0 < rho * inject_Z N' * A)%Q).
  { apply Qmult_lt_0_compat; [ apply Qmult_lt_0_compat | ]; assumption. }
  exists (m / (rho * inject_Z N' * A))%Q. split.
  - unfold tube_velocity. cbn [num_mul num_of_int py_exact bind].
    apply exact_div_Ok. lra.
  - apply Qlt_shift_div_l; [ exact Hden' | ].
    assert (Hm' : (m == raw * (rho * vt * A))%Q) by (unfold raw; field; lra).
    rewrite Hm'.
    setoid_replace (vt * (rho * inject_Z N' * A))%Q
      with (inject_Z N' * (rho * vt * A))%Q by ring.
    apply Qmult_lt_compat_r; assumption.
Qed.

(** ** The feedback log over a session *)

Lemma to_csv_well_formed (env : Env) (file : option string) (row : list string) :
  well_formed env file -> length row = 3%nat ->
  well_formed env (Some (to_csv env file row)).
Proof.
  intros Hwf Hrow. destruct file as [old | ]; cbn [to_csv well_formed] in *.
  - destruct Hwf as (data & -> & Hdata).
    exists (data ++ [row])%list. split.
    + rewrite <- (csv_text_one env row), <- csv_text_app. reflexivity.
    + apply Forall_app. split; [ exact Hdata | ].
      constructor; [ exact Hrow | constructor ].
  - exists [row]. split.
    + cbn [csv_text fold_right]. rewrite append_nil_r. reflexivity.
    + constructor; [ exact Hrow | constructor ].
Qed.

Section SessionProperties.
Context {C : Type} `{ComplexOps C}.

Lemma script_file (env : Env) (ui : UI) (w : World) :
  feedback_csv (fst (script env ui w)) =
  if accepted ui
  then Some (to_csv env (feedback_csv w) (feedback_row (now w) ui))
  else feedback_csv w.
Proof. rewrite script_world. apply submit_feedback_file. Qed.

(** A file that exists only grows, at its end. *)
Lemma session_existing_file (env : Env) (steps : list (string * UI))
  (w : World) (old : string) :
  feedback_csv w = Some old ->
  feedback_csv (session env steps w)
  = Some (old ++ csv_text env (new_rows steps)).
Proof.
  revert w old. induction steps as [ | [clock ui] rest IH]; intros w old Hold.
  - cbn [session]. unfold new_rows. cbn [filter map csv_text fold_right].
    rewrite append_nil_r. exact Hold.
  - cbn [session]. unfold new_rows. cbn [filter fst snd].
    destruct (accepted ui) eqn:Hacc.
    + rewrite (IH _ (old ++ csv_row env (feedback_row clock ui))).
      * cbn [map fst snd csv_text fold_right].
        rewrite append_assoc. reflexivity.
      * rewrite script_file, Hacc. cbn [at_time feedback_csv now].
        rewrite Hold. reflexivity.
    + apply IH. rewrite script_file, Hacc. exact Hold.
Qed.

(** X12.  The feedback file is append-only and keeps the order of
    submission: after any sequence of reruns an existing file holds the
    text it held, byte for byte, followed by the text of one record
    (timestamp, name, feedback) per accepted press, in order; a missing
    file stays missing until the first accepted press, which creates it
    with the text of the header record first.  The header is written at
    no other time.  Design runs, presses with an empty field and reruns
    without a press add nothing. *)
Theorem session_file (env : Env) (steps : list (string * UI)) (w : World) :
  feedback_csv (session env steps w) =
  match feedback_csv w with
  | Some old => Some (old ++ csv_text env (new_rows steps))
  | None =>
      match new_rows steps with
      | [] => None
      | added => Some (csv_text env (feedback_header :: added))
      end
  end.
Proof.
  destruct (feedback_csv w) as [old | ] eqn:Hfile.
  - apply session_existing_file. exact Hfile.
  - revert w Hfile. induction steps as [ | [clock ui] rest IH]; intros w Hfile.
    + exact Hfile.
    + cbn [session]. unfold new_rows. cbn [filter fst snd].
      destruct (accepted ui) eqn:Hacc.
      * cbn [map fst snd].
        rewrite (session_existing_file env rest _
                   (csv_row env feedback_header
                    ++ csv_row env (feedback_row clock ui))).
        -- cbn [csv_text fold_right]. rewrite append_assoc. reflexivity.
        -- rewrite script_file, Hacc. cbn [at_time feedback_csv now].
           rewrite Hfile. reflexivity.
      * apply IH. rewrite script_file, Hacc. exact Hfile.
Qed.

(** One rerun keeps the file well formed. *)
Lemma script_well_formed (env : Env) (ui : UI) (w : World) :
  well_formed env (feedback_csv w) ->
  well_formed env (feedback_csv (fst (script env ui w))).
Proof.
  intros Hwf. rewrite script_file. destruct (accepted ui); [ | exact Hwf ].
  apply to_csv_well_formed; [ exact Hwf | reflexivity ].
Qed.

(** X13.  A feedback file that is missing or well formed (the text of
    the header record Timestamp, Name, Feedback, then the text of records
    of three fields, as the writer produces them) stays so over any
    session; and whenever it is present at the end, that text is what the
    page hands to pd.read_csv and shows the outcome of. *)
Theorem well_formed_file_is_kept (env : Env) (steps : list (string * UI))
  (w : World) :
  well_formed env (feedback_csv w) ->
  well_formed env (feedback_csv (session env steps w)) /\
  forall text,
    feedback_csv (session env steps w) = Some text ->
    exists data,
      text = csv_text env (feedback_header :: data) /\
      Forall (fun r => length r = 3%nat) data /\
      show_feedback env (session env steps w)
      = [Subheader "📢 Visitor Feedback";
         shown (read_csv env (csv_text env (feedback_header :: data)))].
Proof.
  intros Hwf.
  assert (Hwf' : well_formed env (feedback_csv (session env steps w))).
  { revert w Hwf. induction steps as [ | [clock ui] rest IH]; intros w Hwf.
    - exact Hwf.
    - cbn [session]. apply IH. apply script_well_formed. exact Hwf. }
  split; [ exact Hwf' | ].
  intros text Hfile. unfold well_formed in Hwf'. rewrite Hfile in Hwf'.
  destruct Hwf' as (data & -> & Hdata). exists data.
  split; [ reflexivity | split; [ exact Hdata | ] ].
  unfold show_feedback. rewrite Hfile. reflexivity.
Qed.

(** X14.  An existing but empty feedback.csv is not repaired.  Without an
    accepted press it stays empty and the page hands the empty text to
    pd.read_csv.  An accepted press writes the text of its record and no
    header, so that record is the first one of the file pd.read_csv is
    then given, and it stays the first one: every later text of the file
    starts with it. *)
Theorem empty_file_is_not_repaired (env : Env) (ui : UI) (w : World)
  (later : list (string * UI)) :
  feedback_csv w = Some "" ->
  (accepted ui = false ->
     feedback_csv (fst (script env ui w)) = Some "" /\
     feedback (snd (script env ui w))
     = [Header "📝 Feedback & Suggestions"; Subheader "📢 Visitor Feedback";
        shown (read_csv env "")]) /\
  (accepted ui = true ->
     let record := csv_row env (feedback_row (now w) ui) in
     feedback_csv (fst (script env ui w)) = Some record /\
     feedback (snd (script env ui w))
     = [Header "📝 Feedback & Suggestions";
        Success "Thank you for your feedback!";
        Subheader "📢 Visitor Feedback";
        shown (read_csv env record)] /\
     feedback_csv (session env later (fst (script env ui w)))
     = Some (record ++ csv_text env (new_rows later))).
Proof.
  intros Hempty. split; intros Hacc; cbv zeta.
  - assert (Hfile : feedback_csv (fst (script env ui w)) = Some "").
    { rewrite script_file, Hacc. exact Hempty. }
    split; [ exact Hfile | ].
    rewrite script_feedback, submit_feedback_thanks, Hacc.
    unfold show_feedback. rewrite <- script_world, Hfile. reflexivity.
  - assert (Hfile : feedback_csv (fst (script env ui w))
                   = Some (csv_row env (feedback_row (now w) ui))).
    { rewrite script_file, Hacc, Hempty. reflexivity. }
    split; [ exact Hfile | split ].
    + rewrite script_feedback, submit_feedback_thanks, Hacc.
      unfold show_feedback. rewrite <- script_world, Hfile. reflexivity.
    + apply session_existing_file. exact Hfile.
Qed.
End SessionProperties.

(** ** The further properties at concrete inputs *)

(** X1, witness.  The default inputs with a target velocity of 0. *)
Lemma zero_design_value_is_an_error_witness :
  raises (run (C := unit) ref_env zero_velocity_inputs).
Proof.
  apply (zero_design_value_is_an_error (C := unit) ref_env zero_velocity_inputs).
  left. reflexivity.
Defined.

(** X2, witness.  The default inputs on a provider whose density is
    infinite. *)
Lemma density_not_finite_is_an_error_witness :
  raises (run (C := unit) unbounded_env default_inputs).
Proof.
  apply (density_not_finite_is_an_error (C := unit) unbounded_env default_inputs
           infinity); reflexivity.
Defined.

(** X3, witness.  Cooling water entering and leaving at 35 degrees. *)
Lemma equal_water_temperatures_is_an_error_witness :
  raises (run (C := unit) ref_env isothermal_water_inputs).
Proof.
  apply (equal_water_temperatures_is_an_error (C := unit) ref_env
           isothermal_water_inputs).
  - reflexivity.
  - reflexivity.
  - reflexivity.
  - intros Cp_w HCp. vm_compute in HCp. injection HCp as <-. reflexivity.
Defined.

(** X4, witness.  Both terminal differences equal to 20 K. *)
Lemma equal_ends_give_no_area_witness :
  exists (st : Locals (C := unit)) (a : float),
    run ref_env equal_ends_inputs = Ok st /\
    zero_or_nan (LMTD st) /\
    A_required st = PyFloat a /\ finite_float a = false.
Proof.
  assert (Hrun : exists (st : Locals (C := unit)) (u : float),
             run ref_env equal_ends_inputs = Ok st /\
             deltaT1 st = deltaT2 st /\ U st = PyFloat u).
  { do 2 eexists. split; [ vm_compute; reflexivity | ].
    split; vm_compute; reflexivity. }
  destruct Hrun as (st & u & Hrun & Heq & HU).
  destruct (equal_ends_give_no_area ref_env equal_ends_inputs st u Hrun Heq HU)
    as (HL & a & Ha & Hfin).
  exists st, a. repeat split; assumption.
Defined.

(** X5, witness.  The default run reports 8.84 m/s for 48 tubes. *)
Lemma finite_velocity_needs_tubes_witness :
  exists st : Locals (C := unit),
    run ref_env default_inputs = Ok st /\
    N_per_pass st <> 0%Z /\ N_total st <> 0%Z.
Proof.
  assert (Hrun : exists st : Locals (C := unit),
             run ref_env default_inputs = Ok st /\
             finite_float (velocity st) = true).
  { eexists. split; vm_compute; reflexivity. }
  destruct Hrun as (st & Hrun & Hfin). exists st.
  split; [ exact Hrun | ].
  exact (finite_velocity_needs_tubes ref_env default_inputs st Hrun Hfin).
Defined.

(** X6, witness.  A tube diameter of 1e200 m: its square overflows. *)
Lemma tube_area_fails_by_overflow_only_witness :
  single_tube_area ref_env 1e200 = Raise OverflowError /\
  is_infinity (libm_pow ref_env (abs 1e200) 2) = true.
Proof.
  assert (Hraise : single_tube_area ref_env 1e200 = Raise OverflowError)
    by (vm_compute; reflexivity).
  split; [ exact Hraise | ].
  exact (proj2 (tube_area_fails_by_overflow_only ref_env 1e200 OverflowError Hraise)).
Defined.

(** X7, witness.  In exact arithmetic the flow of the C3 witness needs 48
    tubes; 47 tubes run above 9 m/s. *)
Lemma exact_tube_count_is_minimal_witness :
  exists v',
    tube_velocity (227 # 1000)%Q (10889 # 10000)%Q 47 (49 # 100000)%Q = Ok v' /\
    (9 < v')%Q.
Proof.
  apply (exact_tube_count_is_minimal (227 # 1000) (10889 # 10000) 9
           (49 # 100000) 48 47); try reflexivity.
  split; [ discriminate | reflexivity ].
Defined.

(** X8, witness.  A provider that fails on the viscosity, the third
    lookup. *)
Lemma first_failed_lookup_is_reported_witness :
  run (C := unit) no_viscosity_env default_inputs = Raise ValueError /\
  run_design (C := unit) no_viscosity_env default_inputs
  = [Error "Calculation Error"; WriteExn ValueError].
Proof.
  apply (first_failed_lookup_is_reported (C := unit) no_viscosity_env
           default_inputs ["D"; "C"] ["L"; "PRANDTL"] "V" ValueError).
  - reflexivity.
  - repeat constructor; eexists; vm_compute; reflexivity.
  - reflexivity.
Defined.

(** X9, witness.  With the flow entered by hand, a provider that knows no
    water gives the same run as the reference one. *)
Lemma manual_water_ignores_water_properties_witness :
  run (C := unit) dry_env manual_inputs = run ref_env manual_inputs.
Proof.
  apply (manual_water_ignores_water_properties (C := unit) ref_env dry_env
           manual_inputs); reflexivity.
Defined.

(** X10, witness.  The default run: Re_h is about 24313 and Pr_h 0.7. *)
Lemma real_results_for_nonnegative_groups_witness :
  exists (st : Locals (C := unit)) (u : float),
    run ref_env default_inputs = Ok st /\
    U st = PyFloat u /\
    A_required st = PyFloat (Q_duty st / (u * F st * LMTD st)).
Proof.
  assert (Hrun : exists st : Locals (C := unit),
             run ref_env default_inputs = Ok st /\
             (Re_h st <? 0) = false /\ (Pr_h st <? 0) = false).
  { eexists. split; [ vm_compute; reflexivity | ].
    split; vm_compute; reflexivity. }
  destruct Hrun as (st & Hrun & HRe & HPr).
  destruct (real_results_for_nonnegative_groups ref_env default_inputs st
              Hrun HRe HPr) as (nu & h & u & _ & _ & _ & HU & _ & HA).
  exists st, u. repeat split; assumption.
Defined.

(** X11, witness.  The default inputs with 2 and with 4 passes. *)
Lemma two_or_four_passes_witness :
  exists st2 st4 : Locals (C := unit),
    run ref_env (with_passes default_inputs Two) = Ok st2 /\
    run ref_env (with_passes default_inputs Four) = Ok st4 /\
    A_required st4 = A_required st2 /\
    N_total st4 = (2 * N_total st2)%Z.
Proof.
  assert (H2 : exists st2 : Locals (C := unit),
             run ref_env (with_passes default_inputs Two) = Ok st2)
    by (eexists; vm_compute; reflexivity).
  assert (H4 : exists st4 : Locals (C := unit),
             run ref_env (with_passes default_inputs Four) = Ok st4)
    by (eexists; vm_compute; reflexivity).
  destruct H2 as [st2 H2]. destruct H4 as [st4 H4].
  destruct (two_or_four_passes ref_env default_inputs st2 st4 H2 H4)
    as (_ & _ & _ & HA & _ & _ & HN).
  exists st2, st4. repeat split; assumption.
Defined.

(** X15, witness.  The defaults with the cooling water leaving at 1e308
    degrees. *)
Lemma overflowing_divisor_gives_no_water_witness :
  exists (st : Locals (C := unit)) (Cp_w : float),
    run ref_env overflow_inputs = Ok st /\
    (m_dot_cold st =? 0) = true /\
    (m_dot_cold st * Cp_w * (T_cold_out st - T_cold_in st) =? Q_duty st) = false.
Proof.
  assert (Hrun : exists (st : Locals (C := unit)) (Cp_w : float),
             run ref_env overflow_inputs = Ok st /\
             Cp_water st = Some Cp_w /\
             is_infinity (Cp_w * (T_cold_out st - T_cold_in st)) = true /\
             finite_float (Q_duty st) = true /\
             (Q_duty st =? 0) = false).
  { do 2 eexists. split; [ vm_compute; reflexivity | ].
    split; [ vm_compute; reflexivity | ].
    repeat split; vm_compute; reflexivity. }
  destruct Hrun as (st & Cp_w & Hrun & HCp & Hinf & Hfin & HQ).
  destruct (overflowing_divisor_gives_no_water ref_env overflow_inputs st Cp_w
              Hrun HCp Hinf Hfin) as [Hzero Hoff].
  exists st, Cp_w.
  split; [ exact Hrun | split; [ exact Hzero | exact (proj1 (Hoff HQ)) ] ].
Defined.

(** X16, witness.  No hydrogen flow through tubes of 1e154 m. *)
Lemma zero_flow_through_unbounded_area_witness :
  exists st : Locals (C := unit),
    run ref_env wide_tube_inputs = Ok st /\
    N_per_pass st = 0%Z /\ N_total st = 0%Z /\ is_nan (velocity st) = true.
Proof.
  assert (Hrun : exists st : Locals (C := unit),
             run ref_env wide_tube_inputs = Ok st)
    by (eexists; vm_compute; reflexivity).
  destruct Hrun as [st Hrun]. exists st. split; [ exact Hrun | ].
  eapply (zero_flow_through_unbounded_area (C := unit) ref_env wide_tube_inputs).
  - reflexivity.
  - vm_compute. reflexivity.
  - reflexivity.
  - reflexivity.
  - reflexivity.
  - vm_compute. reflexivity.
  - reflexivity.
  - exact Hrun.
Defined.

(** X13, witness.  From no file, a signed press followed by a press
    without a name. *)
Lemma well_formed_file_is_kept_witness :
  well_formed ref_env
    (feedback_csv
       (session (C := unit) ref_env
          [("2024-05-01 09:30:00.000000", signed_click);
           ("2024-05-01 09:31:00.000000", blank_name_click)]
          fresh_world)).
Proof.
  apply (well_formed_file_is_kept (C := unit) ref_env). exact I.
Defined.

(** X14, witness.  A signed press on an existing empty file: the file
    then holds the line of the record and nothing before it. *)
Lemma empty_file_is_not_repaired_witness :
  feedback_csv (fst (script (C := unit) ref_env signed_click empty_file_world))
  = Some ("2024-05-03 08:00:00.000000,Asha,Useful tool" ++ LF).
Proof.
  apply (proj2 (empty_file_is_not_repaired (C := unit) ref_env signed_click
                  empty_file_world [] eq_refl)).
  reflexivity.
Defined.
